(** * Outgoing-request instrumentation ([integrations/http.js])

    A shallow embedding of the [Http] integration of the vendored
    monitoring SDK: the constructor and [setupOnce], the wrapped request
    handler with its two one-shot listeners, [addRequestBreadcrumb],
    [extractUrl], [cleanDescription] and [isSentryRequest].

    JavaScript values are a small tagged union, request-option objects are
    records of optional properties living in a store (they are shared and
    mutated by [cleanDescription]), request handles are event emitters in
    a store, and the hub (client, scope, breadcrumb log, spans) is explicit
    state threaded through a state-and-exception monad. *)

From Stdlib Require Import ZArith Bool List Lia Ascii String DecimalString.
Import ListNotations.
Open Scope string_scope.

(** ** JavaScript values *)

Module JS.

(** The primitive values the integration handles.  Numbers are the
    integer-valued ones (ports, status codes), whose decimal rendering is
    what string concatenation produces. *)
Inductive value : Type :=
| Undefined
| Null
| Bool (b : bool)
| Num (n : Z)
| Str (s : string).

(** [ToBoolean]: what [if (v)], [!v], [a || b] and [a && b] test. *)
Definition truthy (v : value) : bool :=
  match v with
  | Undefined | Null => false
  | Bool b => b
  | Num n => negb (n =? 0)%Z
  | Str s => negb (s =? "")
  end.

(** [ToString], as applied by [+] when the other operand is a string. *)
Definition ToString (v : value) : string :=
  match v with
  | Undefined => "undefined"
  | Null => "null"
  | Bool true => "true"
  | Bool false => "false"
  | Num n => NilZero.string_of_int (Z.to_int n)
  | Str s => s
  end.

(** [a || b] *)
Definition or (a b : value) : value := if truthy a then a else b.

(** [a === b] on primitives. *)
Definition strict_eq (a b : value) : bool :=
  match a, b with
  | Undefined, Undefined => true
  | Null, Null => true
  | Bool x, Bool y => Bool.eqb x y
  | Num x, Num y => (x =? y)%Z
  | Str x, Str y => (x =? y)
  | _, _ => false
  end.

(** Reading a property: a missing key reads as [undefined]. *)
Definition get (p : option value) : value :=
  match p with
  | Some v => v
  | None => Undefined
  end.

(** [typeof p === 'undefined'] for a property read. *)
Definition is_undefined (v : value) : bool :=
  match v with
  | Undefined => true
  | _ => false
  end.

(** Dropping the first [n] characters. *)
Fixpoint drop (n : nat) (s : string) : string :=
  match n, s with
  | O, _ => s
  | S n', String _ s' => drop n' s'
  | S _, EmptyString => EmptyString
  end.

(** [s.replace(pat, rep)] with a string pattern: the first occurrence of
    [pat] is replaced, the rest of [s] is kept. *)
Fixpoint replace (pat rep s : string) {struct s} : string :=
  if prefix pat s then rep ++ drop (length pat) s
  else
    match s with
    | EmptyString => EmptyString
    | String c s' => String c (replace pat rep s')
    end.

(** [s.indexOf(pat)] *)
Definition indexOf (s pat : string) : Z :=
  match index 0 pat s with
  | Some i => Z.of_nat i
  | None => (-1)%Z
  end.

End JS.

(** ** Request options and URL assembly *)

(** The argument of [http.request] / [http.get] when it is an object: every
    property is optional; [None] is a missing key, [Some JS.Undefined] a key
    that is present and holds [undefined]. *)
Record RequestOptions : Type := mkOptions {
  protocol : option JS.value;
  host : option JS.value;
  hostname : option JS.value;
  port : option JS.value;
  path : option JS.value;
  method : option JS.value
}.

(** What [extractUrl] receives: a URL string or an options object. *)
Inductive UrlLike : Type :=
| UrlString (s : string)
| UrlObject (o : RequestOptions).

(** [extractUrl], lines 128-139. *)
Definition extractUrl (url : UrlLike) : string :=
  match url with
  | UrlString s => s
  | UrlObject u =>
      let protocol := JS.or (JS.get (protocol u)) (JS.Str "") in
      let hostname :=
        JS.or (JS.or (JS.get (hostname u)) (JS.get (host u))) (JS.Str "") in
      let port :=
        if negb (JS.truthy (JS.get (port u)))
           || JS.strict_eq (JS.get (port u)) (JS.Num 80)
           || JS.strict_eq (JS.get (port u)) (JS.Num 443)
        then ""
        else ":" ++ JS.ToString (JS.get (port u)) in
      let path :=
        if JS.truthy (JS.get (path u)) then JS.get (path u) else JS.Str "/" in
      JS.replace "///" "/"
        (JS.ToString protocol ++ "//" ++ JS.ToString hostname ++ port
           ++ JS.ToString path)
  end.

Definition no_options : RequestOptions :=
  mkOptions None None None None None None.

(** ** The world: hub, option objects, request handles *)

(** Object references. *)
Definition ref : Type := nat.

(** The first argument of the wrapped entry points: a URL string, or a
    reference to the caller's options object (the object is shared: the
    listeners keep the reference and [cleanDescription] writes to it). *)
Inductive CallArgs : Type :=
| ArgString (s : string)
| ArgObject (r : ref).

(** The remaining arguments (callback, ...) are passed through opaquely. *)
Definition Extra : Type := nat.

Record Dsn : Type := mkDsn { dsn_host : string }.

Record Client : Type := mkClient { getDsn : option Dsn }.

Record Scope : Type := mkScope { getTransaction : option nat }.

(** A span, owned by the sink; [finished] counts the calls of [finish()]. *)
Record Span : Type := mkSpan {
  span_parent : nat;
  span_description : string;
  span_op : string;
  span_http_status : option JS.value;
  finished : nat
}.

(** The response object handed to ['response'] listeners. *)
Record Response : Type := mkResponse { statusCode : JS.value }.

(** A breadcrumb together with the hint it was recorded with. *)
Record Breadcrumb : Type := mkBreadcrumb {
  category : string;
  data_method : JS.value;
  data_status_code : JS.value;
  data_url : string;
  crumb_type : string;
  hint_event : string;
  hint_request : ref;
  hint_response : option Response
}.

(** The current hub: [getClient()], [getScope()], whether
    [getIntegration(Http)] finds the integration, and the sink's breadcrumb
    log and spans. *)
Record Hub : Type := mkHub {
  getClient : option Client;
  getScope : option Scope;
  getIntegration : bool;
  breadcrumbs : list Breadcrumb;
  spans : list Span
}.

(** The [agent] of a request; [agent_protocol] is [undefined] when the agent
    has no such property. *)
Record Agent : Type := mkAgent { agent_protocol : JS.value }.

(** Listener closures, defunctionalised: the two closures that
    [wrappedHandler] creates, with the variables they capture, and listeners
    registered by anyone else. *)
Inductive Callback : Type :=
| OnResponse (breadcrumbsEnabled tracingEnabled : JS.value)
             (requestUrl : string) (options : CallArgs) (span : option nat)
| OnError (breadcrumbsEnabled tracingEnabled : JS.value)
          (requestUrl : string) (options : CallArgs) (span : option nat)
| Foreign (tag : nat).

Record Listener : Type := mkListener {
  listens_to : string;
  one_shot : bool;
  callback : Callback
}.

(** A request handle ([http.ClientRequest]): an event emitter with a
    [method] and possibly an [agent] ([None]: the property is [undefined]). *)
Record ClientRequest : Type := mkRequest {
  req_method : JS.value;
  req_agent : option Agent;
  listeners : list Listener
}.

Record Heap : Type := mkHeap {
  objects : ref -> RequestOptions;
  requests : ref -> ClientRequest
}.

Record World : Type := mkWorld {
  hub : Hub;
  heap : Heap
}.

Definition upd {A : Type} (f : ref -> A) (r : ref) (a : A) : ref -> A :=
  fun r' => if Nat.eqb r' r then a else f r'.

Fixpoint update_nth {A : Type} (n : nat) (f : A -> A) (l : list A) : list A :=
  match l, n with
  | [], _ => []
  | x :: l', O => f x :: l'
  | x :: l', S n' => x :: update_nth n' f l'
  end.

Definition with_spans (f : list Span -> list Span) (w : World) : World :=
  let h := hub w in
  mkWorld (mkHub (getClient h) (getScope h) (getIntegration h)
             (breadcrumbs h) (f (spans h)))
          (heap w).

Definition with_breadcrumbs (f : list Breadcrumb -> list Breadcrumb)
  (w : World) : World :=
  let h := hub w in
  mkWorld (mkHub (getClient h) (getScope h) (getIntegration h)
             (f (breadcrumbs h)) (spans h))
          (heap w).

Definition with_object (r : ref) (f : RequestOptions -> RequestOptions)
  (w : World) : World :=
  let m := heap w in
  mkWorld (hub w) (mkHeap (upd (objects m) r (f (objects m r))) (requests m)).

Definition with_request (r : ref) (f : ClientRequest -> ClientRequest)
  (w : World) : World :=
  let m := heap w in
  mkWorld (hub w) (mkHeap (objects m) (upd (requests m) r (f (requests m r)))).

(** ** Computations: state and exceptions *)

Inductive Exn : Type :=
| TypeError
| Thrown (code : nat).

Inductive Result (A : Type) : Type :=
| Ok (a : A)
| Throw (e : Exn).
Arguments Ok {A} a.
Arguments Throw {A} e.

(** A computation reads and writes the world and returns or throws; what was
    written before a throw stays written. *)
Definition M (A : Type) : Type := World -> Result A * World.

Definition ret {A : Type} (a : A) : M A := fun w => (Ok a, w).

Definition bind {A B : Type} (m : M A) (k : A -> M B) : M B :=
  fun w =>
    match m w with
    | (Ok a, w') => k a w'
    | (Throw e, w') => (Throw e, w')
    end.

Definition throw {A : Type} (e : Exn) : M A := fun w => (Throw e, w).

Definition try_catch {A : Type} (m : M A) (handler : Exn -> M A) : M A :=
  fun w =>
    match m w with
    | (Ok a, w') => (Ok a, w')
    | (Throw e, w') => handler e w'
    end.

Definition reads {A : Type} (f : World -> A) : M A := fun w => (Ok (f w), w).

Definition modify (f : World -> World) : M unit := fun w => (Ok tt, f w).

Declare Scope js_scope.
Delimit Scope js_scope with js.
Notation "x <- m ;; k" := (bind m (fun x => k))
  (at level 61, m at next level, right associativity) : js_scope.
Notation "m ;; k" := (bind m (fun _ => k))
  (at level 61, right associativity) : js_scope.
Open Scope js_scope.

(** ** The sink and the emitter interface *)

(** Modelled from the spec: [Transaction.startChildSpan(description, op)] of
    the sink interface; the sink's tracing code is not in this file.  It
    hands out a new span, not yet finished. *)
Definition startChild (transaction : nat) (description op : string) : M nat :=
  id <- reads (fun w => List.length (spans (hub w))) ;;
  modify (with_spans (fun l =>
    l ++ [mkSpan transaction description op None 0])%list) ;;
  ret id.

(** Modelled from the spec: [Span.setHttpStatus(code)] of the sink
    interface. *)
Definition setHttpStatus (span : nat) (code : JS.value) : M unit :=
  modify (with_spans (update_nth span (fun s =>
    mkSpan (span_parent s) (span_description s) (span_op s) (Some code)
           (finished s)))).

(** The assignment [span.description = d]. *)
Definition set_description (span : nat) (d : string) : M unit :=
  modify (with_spans (update_nth span (fun s =>
    mkSpan (span_parent s) d (span_op s) (span_http_status s) (finished s)))).

(** Modelled from the spec: [Span.finish()] of the sink interface; every
    call is counted. *)
Definition finish (span : nat) : M unit :=
  modify (with_spans (update_nth span (fun s =>
    mkSpan (span_parent s) (span_description s) (span_op s)
           (span_http_status s) (S (finished s))))).

(** Modelled from the spec: [addBreadcrumb(record, hint)] of the sink
    interface appends to the sink's breadcrumb log. *)
Definition addBreadcrumb (b : Breadcrumb) : M unit :=
  modify (with_breadcrumbs (fun l => l ++ [b])%list).

(** Modelled from the spec: one-shot registration [emitter.once(name, cb)]
    of the wrapped call interface; it returns the emitter itself. *)
Definition once (this : ref) (name : string) (cb : Callback) : M ref :=
  modify (with_request this (fun e =>
    mkRequest (req_method e) (req_agent e)
      (listeners e ++ [mkListener name true cb])%list)) ;;
  ret this.

(** ** The integration *)

(** [isSentryRequest], lines 171-181, against the current hub. *)
Definition isSentryRequest (url : string) (h : Hub) : bool :=
  if negb (JS.truthy (JS.Str url)) then false
  else
    match getClient h with
    | None => false
    | Some client =>
        match getDsn client with
        | None => false
        | Some dsn => negb (JS.indexOf url (dsn_host dsn) =? -1)%Z
        end
    end.

(** The value of the [options] argument in the current world. *)
Definition deref (options : CallArgs) (w : World) : UrlLike :=
  match options with
  | ArgString s => UrlString s
  | ArgObject r => UrlObject (objects (heap w) r)
  end.

(** [typeof options === 'string' || !options.method ? 'GET' : options.method],
    line 70. *)
Definition method_of_call (options : UrlLike) : JS.value :=
  match options with
  | UrlString _ => JS.Str "GET"
  | UrlObject o =>
      if negb (JS.truthy (JS.get (method o))) then JS.Str "GET"
      else JS.get (method o)
  end.

(** [Object.keys(o).includes(key)] for one of the optional properties. *)
Definition has_key (p : option JS.value) : bool :=
  match p with
  | Some _ => true
  | None => false
  end.

(** [response.agent.protocol]: reading a property of [undefined] throws. *)
Definition read_agent_protocol (response : ref) : M JS.value :=
  a <- reads (fun w => req_agent (requests (heap w) response)) ;;
  match a with
  | Some agent => ret (agent_protocol agent)
  | None => throw TypeError
  end.

(** [cleanDescription], lines 148-166. *)
Definition cleanDescription (requestOptions : CallArgs) (response : ref)
  (span : nat) : M unit :=
  match requestOptions with
  | ArgString _ => ret tt
  | ArgObject r =>
      o <- reads (fun w => objects (heap w) r) ;;
      if negb (has_key (protocol o)) && JS.truthy (JS.get (host o)) then
        try_catch
          (p <- read_agent_protocol response ;;
           modify (with_object r (fun o =>
             mkOptions (Some p) (host o) (hostname o) (port o) (path o)
                       (method o))) ;;
           o' <- reads (fun w => objects (heap w) r) ;;
           set_description span
             (JS.ToString (JS.or (JS.get (method o')) (JS.Str "GET"))
                ++ " " ++ extractUrl (UrlObject o')))
          (fun _ => ret tt)
      else ret tt
  end.

(** [addRequestBreadcrumb], lines 104-121; [res] is [None] when the fourth
    argument is not passed. *)
Definition addRequestBreadcrumb (event url : string) (req : ref)
  (res : option Response) : M unit :=
  installed <- reads (fun w => getIntegration (hub w)) ;;
  if negb installed then ret tt
  else
    m <- reads (fun w => req_method (requests (heap w) req)) ;;
    addBreadcrumb
      (mkBreadcrumb "http" m
         (match res with
          | Some r => statusCode r
          | None => JS.Undefined
          end)
         url "http" event req res).

(** The events a request handle delivers to the two listeners. *)
Inductive Event : Type :=
| EvResponse (res : Response)
| EvError.

Definition event_name (ev : Event) : string :=
  match ev with
  | EvResponse _ => "response"
  | EvError => "error"
  end.

Definition payload (ev : Event) : option Response :=
  match ev with
  | EvResponse res => Some res
  | EvError => None
  end.

(** The bodies of the two listeners, lines 78-87 and 88-97; [this] is the
    request handle.  A ['response'] listener that is handed no response
    throws on [res.statusCode].  Listeners registered by others are opaque
    and leave the hub, the option objects and the listener lists alone. *)
Definition run_callback (cb : Callback) (this : ref) (ev : Event) : M unit :=
  match cb with
  | OnResponse breadcrumbsEnabled tracingEnabled requestUrl options span =>
      (if JS.truthy breadcrumbsEnabled
       then addRequestBreadcrumb "response" requestUrl this (payload ev)
       else ret tt) ;;
      if JS.truthy tracingEnabled then
        match span with
        | Some s =>
            match payload ev with
            | Some res =>
                setHttpStatus s (statusCode res) ;;
                cleanDescription options this s ;;
                finish s
            | None => throw TypeError
            end
        | None => ret tt
        end
      else ret tt
  | OnError breadcrumbsEnabled tracingEnabled requestUrl options span =>
      (if JS.truthy breadcrumbsEnabled
       then addRequestBreadcrumb "error" requestUrl this None
       else ret tt) ;;
      if JS.truthy tracingEnabled then
        match span with
        | Some s =>
            setHttpStatus s (JS.Num 500) ;;
            cleanDescription options this s ;;
            finish s
        | None => ret tt
        end
      else ret tt
  | Foreign _ => ret tt
  end.

Definition hears (ev : Event) (l : Listener) : bool :=
  listens_to l =? event_name ev.

Fixpoint run_listeners (ls : list Listener) (this : ref) (ev : Event)
  : M unit :=
  match ls with
  | [] => ret tt
  | l :: ls' =>
      run_callback (callback l) this ev ;; run_listeners ls' this ev
  end.

(** Modelled from the spec: delivery of an event by the handle.  The
    listeners registered for the event run in registration order; one-shot
    listeners are unregistered by the delivery. *)
Definition emit (this : ref) (ev : Event) : M unit :=
  ls <- reads (fun w => listeners (requests (heap w) this)) ;;
  modify (with_request this (fun e =>
    mkRequest (req_method e) (req_agent e)
      (filter (fun l => negb (hears ev l && one_shot l)) ls))) ;;
  run_listeners (filter (hears ev) ls) this ev.

(** Delivery of a sequence of events, stopping at the first throw. *)
Fixpoint deliver (this : ref) (evs : list Event) : M unit :=
  match evs with
  | [] => ret tt
  | ev :: evs' => emit this ev ;; deliver this evs'
  end.

(** An entry point ([get] or [request]): the options, the other arguments. *)
Definition Handler : Type := CallArgs -> list Extra -> M ref.

(** [_createWrappedHandlerMaker], lines 55-100, uncurried:
    [wrappedHandler b t originalHandler] is
    [_createWrappedHandlerMaker(b, t)(originalHandler)]. *)
Definition wrappedHandler (breadcrumbsEnabled tracingEnabled : JS.value)
  (originalHandler : Handler) : Handler :=
  fun options rest =>
    opts <- reads (deref options) ;;
    let requestUrl := extractUrl opts in
    sentry <- reads (fun w => isSentryRequest requestUrl (hub w)) ;;
    if sentry then originalHandler options rest
    else
      scope <- reads (fun w => getScope (hub w)) ;;
      span <-
        match scope with
        | Some sc =>
            if JS.truthy tracingEnabled then
              match getTransaction sc with
              | Some transaction =>
                  s <- startChild transaction
                         (JS.ToString (method_of_call opts)
                            ++ " " ++ requestUrl)
                         "request" ;;
                  ret (Some s)
              | None => ret None
              end
            else ret None
        | None => ret None
        end ;;
      req <- originalHandler options rest ;;
      req' <- once req "response"
                (OnResponse breadcrumbsEnabled tracingEnabled requestUrl
                   options span) ;;
      once req' "error"
        (OnError breadcrumbsEnabled tracingEnabled requestUrl options span).

Definition _createWrappedHandlerMaker
  (breadcrumbsEnabled tracingEnabled : JS.value) : Handler -> Handler :=
  fun originalHandler =>
    wrappedHandler breadcrumbsEnabled tracingEnabled originalHandler.

(** The constructor argument: an options object with two optional flags. *)
Record HttpOptions : Type := mkHttpOptions {
  opt_breadcrumbs : option JS.value;
  opt_tracing : option JS.value
}.

Record HttpIntegration : Type := mkHttp {
  _breadcrumbs : JS.value;
  _tracing : JS.value
}.

(** The constructor [Http(options)], lines 9-17; [None] is a call without
    argument. *)
Definition Http (options : option HttpOptions) : HttpIntegration :=
  let options :=
    match options with
    | None => mkHttpOptions None None
    | Some o => o
    end in
  mkHttp
    (if JS.is_undefined (JS.get (opt_breadcrumbs options)) then JS.Bool true
     else JS.get (opt_breadcrumbs options))
    (if JS.is_undefined (JS.get (opt_tracing options)) then JS.Bool false
     else JS.get (opt_tracing options)).

(** The two entry points of a protocol family. *)
Record NodeModule : Type := mkModule {
  mod_get : Handler;
  mod_request : Handler
}.

(** The modules [require('http')] and [require('https')]. *)
Record Modules : Type := mkModules {
  httpModule : NodeModule;
  httpsModule : NodeModule
}.

(** Modelled from the spec: [fill(module, name, maker)] of the utilities
    replaces the entry point by [maker(original)]. *)
Definition fill_get (m : NodeModule) (maker : Handler -> Handler)
  : NodeModule :=
  mkModule (maker (mod_get m)) (mod_request m).

Definition fill_request (m : NodeModule) (maker : Handler -> Handler)
  : NodeModule :=
  mkModule (mod_get m) (maker (mod_request m)).

(** [setupOnce], lines 21-38; [major] is [NODE_VERSION.major]. *)
Definition setupOnce (this : HttpIntegration) (major : JS.value)
  (ms : Modules) : Modules :=
  if negb (JS.truthy (_breadcrumbs this)) && negb (JS.truthy (_tracing this))
  then ms
  else
    let wrappedHandlerMaker :=
      _createWrappedHandlerMaker (_breadcrumbs this) (_tracing this) in
    let http :=
      fill_request (fill_get (httpModule ms) wrappedHandlerMaker)
        wrappedHandlerMaker in
    if JS.truthy major
       && match major with
          | JS.Num n => (8 <? n)%Z
          | _ => false
          end
    then
      mkModules http
        (fill_request (fill_get (httpsModule ms) wrappedHandlerMaker)
           wrappedHandlerMaker)
    else mkModules http (httpsModule ms).

(** * Vocabulary of the properties *)

(** ** Node's own entry points *)

(** Node's own entry points know nothing of the hub: they act on the heap. *)
Definition NodeHandler : Type :=
  CallArgs -> list Extra -> Heap -> Result ref * Heap.

Definition native (f : NodeHandler) : Handler :=
  fun options rest w =>
    let '(r, m) := f options rest (heap w) in (r, mkWorld (hub w) m).

(** ** Strings: occurrences *)

(** [s] occurs in [url]. *)
Definition substring_of (s url : string) : Prop :=
  exists pre post, url = pre ++ s ++ post.

(** The number of positions of [s] at which [pat] starts. *)
Fixpoint occurrences (pat s : string) : nat :=
  (if prefix pat s then 1 else 0)
  + match s with
    | EmptyString => 0
    | String _ s' => occurrences pat s'
    end.

Fixpoint has_char (c : ascii) (s : string) : bool :=
  match s with
  | EmptyString => false
  | String a s' => Ascii.eqb a c || has_char c s'
  end.

(** ** URL normalization: reference definitions *)

(** A property counts as absent when the key is missing or holds
    [undefined] or [null]. *)
Definition absent (p : option JS.value) : bool :=
  match p with
  | None | Some JS.Undefined | Some JS.Null => true
  | Some _ => false
  end.

(** The first of the candidates that holds something, else the default:
    the reading of [a or b or ""]. *)
Fixpoint first_of (candidates : list (option JS.value)) (default : string)
  : string :=
  match candidates with
  | [] => default
  | c :: rest =>
      if JS.truthy (JS.get c) then JS.ToString (JS.get c)
      else first_of rest default
  end.

(** Collapsing the first ["///"] to ["/"], by position. *)
Definition collapse_once (s : string) : string :=
  match index 0 "///" s with
  | Some i =>
      substring 0 i s ++ "/" ++ substring (i + 3) (length s - (i + 3)) s
  | None => s
  end.

(** The port is the number 80 or 443. *)
Definition is_default_port (v : JS.value) : bool :=
  match v with
  | JS.Num n => (n =? 80)%Z || (n =? 443)%Z
  | _ => false
  end.

(** The reference definition in the words of the specification: the port
    suffix is empty when the port is absent or equals 80 or 443, else [":"]
    and the port; the path defaults to ["/"] when absent. *)
Definition spec_port_suffix (p : option JS.value) : string :=
  if absent p || is_default_port (JS.get p) then ""
  else ":" ++ JS.ToString (JS.get p).

Definition spec_path_or_slash (p : option JS.value) : string :=
  if absent p then "/" else JS.ToString (JS.get p).

(** [normalize] of the specification: a string is returned unchanged; an
    object is assembled as protocol, ["//"], hostname or host or [""], port
    suffix, path or slash, and one ["///"] is collapsed afterwards. *)
Definition spec_normalize (callArgs : UrlLike) : string :=
  match callArgs with
  | UrlString s => s
  | UrlObject u =>
      collapse_once
        (first_of [protocol u] "" ++ "//" ++ first_of [hostname u; host u] ""
           ++ spec_port_suffix (port u) ++ spec_path_or_slash (path u))
  end.

(** The same reference definition with absence read the way the code tests
    it: a property that is missing or falsy (empty, zero, [false], [null],
    [undefined]) does not count. *)
Definition port_suffix (p : option JS.value) : string :=
  if JS.truthy (JS.get p) then
    if is_default_port (JS.get p) then "" else ":" ++ JS.ToString (JS.get p)
  else "".

Definition path_or_slash (p : option JS.value) : string :=
  first_of [p] "/".

Definition normalize (callArgs : UrlLike) : string :=
  match callArgs with
  | UrlString s => s
  | UrlObject u =>
      collapse_once
        (first_of [protocol u] "" ++ "//" ++ first_of [hostname u; host u] ""
           ++ port_suffix (port u) ++ path_or_slash (path u))
  end.

(** The options with the [port] key removed. *)
Definition without_port (u : RequestOptions) : RequestOptions :=
  mkOptions (protocol u) (host u) (hostname u) None (path u) (method u).

(** What the assembly holds before the port suffix. *)
Definition before_port (u : RequestOptions) : string :=
  first_of [protocol u] "" ++ "//" ++ first_of [hostname u; host u] "".

(** ** Running computations *)

(** [runs m w a w']: from [w], [m] returns [a] and leaves [w']. *)
Definition runs {A : Type} (m : M A) (w : World) (a : A) (w' : World) : Prop :=
  m w = (Ok a, w').

(** ** What the listeners of a call can change *)

(** The part of the world the two listeners of a call on handle [h] act
    on, apart from span descriptions, statuses and option objects: the
    breadcrumb log, the [finish()] count of every span, whether the
    integration is installed, and the handle's method and listeners. *)
Record Obs : Type := mkObs {
  o_crumbs : list Breadcrumb;
  o_finished : list nat;
  o_installed : bool;
  o_method : JS.value;
  o_listeners : list Listener
}.

Definition observe (h : ref) (w : World) : Obs :=
  mkObs (breadcrumbs (hub w)) (map finished (spans (hub w)))
        (getIntegration (hub w))
        (req_method (requests (heap w) h))
        (listeners (requests (heap w) h)).

(** The breadcrumb recorded for an event on handle [h]. *)
Definition crumb_for (url : string) (h : ref) (m : JS.value) (ev : Event)
  : Breadcrumb :=
  mkBreadcrumb "http" m
    (match payload ev with
     | Some r => statusCode r
     | None => JS.Undefined
     end)
    url "http" (event_name ev) h (payload ev).

Definition crumb_step (b : JS.value) (url : string) (h : ref) (ev : Event)
  (o : Obs) : Obs :=
  if JS.truthy b && o_installed o then
    mkObs (o_crumbs o ++ [crumb_for url h (o_method o) ev])%list
          (o_finished o) (o_installed o) (o_method o) (o_listeners o)
  else o.

Definition finish_step (t : JS.value) (span : option nat) (o : Obs) : Obs :=
  match span with
  | Some s =>
      if JS.truthy t then
        mkObs (o_crumbs o) (update_nth s S (o_finished o)) (o_installed o)
              (o_method o) (o_listeners o)
      else o
  | None => o
  end.

Definition with_listeners (ls : list Listener) (o : Obs) : Obs :=
  mkObs (o_crumbs o) (o_finished o) (o_installed o) (o_method o) ls.

Definition is_response (ev : Event) : bool :=
  match ev with
  | EvResponse _ => true
  | EvError => false
  end.

(** ** The listeners of one call and the events delivered to them *)

Definition foreign (l : Listener) : Prop :=
  match callback l with
  | Foreign _ => True
  | _ => False
  end.

Definition pending (p : bool) (l : Listener) : list Listener :=
  if p then [l] else [].

(** The two listeners of a call, with the variables they capture. *)
Definition response_listener (b t : JS.value) (url : string)
  (options : CallArgs) (span : option nat) : Listener :=
  mkListener "response" true (OnResponse b t url options span).

Definition error_listener (b t : JS.value) (url : string)
  (options : CallArgs) (span : option nat) : Listener :=
  mkListener "error" true (OnError b t url options span).

(** What one of the two listeners does when its event arrives. *)
Definition listener_step (b t : JS.value) (url : string) (span : option nat)
  (h : ref) (ev : Event) (o : Obs) : Obs :=
  finish_step t span (crumb_step b url h ev o).

(** What the delivery of a sequence of events does, given which of the two
    listeners are still registered. *)
Fixpoint deliver_obs (b t : JS.value) (url : string) (span : option nat)
  (h : ref) (evs : list Event) (pr pe : bool) (o : Obs) : Obs :=
  match evs with
  | [] => o
  | ev :: evs' =>
      if is_response ev
      then deliver_obs b t url span h evs' false pe
             (if pr then listener_step b t url span h ev o else o)
      else deliver_obs b t url span h evs' pr false
             (if pe then listener_step b t url span h ev o else o)
  end.

(** The listeners of a handle: foreign ones, followed by those of the
    call's two listeners that are still registered. *)
Definition call_listeners (b t : JS.value) (url : string)
  (options : CallArgs) (span : option nat) (F : list Listener)
  (pr pe : bool) : list Listener :=
  (F ++ pending pr (response_listener b t url options span)
     ++ pending pe (error_listener b t url options span))%list.

(** The events of a sequence that find their listener still registered,
    given which of the two listeners are. *)
Fixpoint fired (evs : list Event) (pr pe : bool) : list Event :=
  match evs with
  | [] => []
  | ev :: evs' =>
      if is_response ev
      then (if pr then [ev] else []) ++ fired evs' false pe
      else (if pe then [ev] else []) ++ fired evs' pr false
  end%list.

(** The first response and the first error of a sequence, in the order of
    their arrival. *)
Definition first_events (evs : list Event) : list Event := fired evs true true.

(** All events of the sequence are of one kind: responses only, or errors
    only. *)
Definition one_kind (evs : list Event) : Prop :=
  forall e1 e2, In e1 evs -> In e2 evs -> is_response e1 = is_response e2.

(** ** The instrumented call and description cleanup *)

(** The transaction under which [wrappedHandler] starts a span, if it
    does: a scope, tracing enabled, a transaction on the scope. *)
Definition started (t : JS.value) (hb : Hub) : option nat :=
  match getScope hb with
  | Some sc => if JS.truthy t then getTransaction sc else None
  | None => None
  end.

(** The description the span is started with, line 70. *)
Definition call_description (options : UrlLike) : string :=
  JS.ToString (method_of_call options) ++ " " ++ extractUrl options.

(** The condition under which [cleanDescription] does anything: an options
    object without a [protocol] key and with a truthy [host]. *)
Definition cleanup_applies (requestOptions : UrlLike) : bool :=
  match requestOptions with
  | UrlString _ => false
  | UrlObject o => negb (has_key (protocol o)) && JS.truthy (JS.get (host o))
  end.

(** ** Concrete worlds and inputs *)

(** A hub whose client has a DSN with the given host, nothing else. *)
Definition hub_with_host (h : string) : Hub :=
  mkHub (Some (mkClient (Some (mkDsn h)))) None true [] [].

(** A heap with no option objects of interest and bare request handles. *)
Definition empty_heap : Heap :=
  mkHeap (fun _ => no_options) (fun _ => mkRequest JS.Undefined None []).

(** An entry point that hands out the handle [h] and touches nothing. *)
Definition plain_request (h : ref) : Handler := fun _ _ => ret h.

(** The options [{protocol: 'http:', host: 'a', path: ''}]. *)
Definition empty_path_options : RequestOptions :=
  mkOptions (Some (JS.Str "http:")) (Some (JS.Str "a")) None None
            (Some (JS.Str "")) None.

(** The options [{protocol: 'http:', hostname: 'a', port: 0, path: '/'}]
    and [{protocol: 'http:', hostname: 'a:8080', port: 8080, path: '/'}]. *)
Definition port_zero_options : RequestOptions :=
  mkOptions (Some (JS.Str "http:")) None (Some (JS.Str "a"))
            (Some (JS.Num 0)) (Some (JS.Str "/")) None.

Definition port_in_host_options : RequestOptions :=
  mkOptions (Some (JS.Str "http:")) None (Some (JS.Str "a:8080"))
            (Some (JS.Num 8080)) (Some (JS.Str "/")) None.

(** A hub with a transaction on its scope, an options object
    [{protocol: 'http:', host: 'a', path: '/x', method: 'POST'}], and an
    entry point of Node that hands out handle 1. *)
Definition traced_hub : Hub :=
  mkHub None (Some (mkScope (Some 7))) true [] [].

Definition post_options : RequestOptions :=
  mkOptions (Some (JS.Str "http:")) (Some (JS.Str "a")) None None
            (Some (JS.Str "/x")) (Some (JS.Str "POST")).

Definition demo_heap : Heap :=
  mkHeap (fun _ => post_options)
         (fun _ => mkRequest (JS.Str "POST") None []).

Definition demo_request : NodeHandler := fun _ _ m => (Ok 1, m).

Definition ok_response : Response := mkResponse (JS.Num 200).

(** A span whose description lacks the protocol, options [{host: 'a'}],
    and a request handle whose agent knows the protocol. *)
Definition cleanup_world : World :=
  mkWorld (mkHub None None true [] [mkSpan 7 "GET //a/" "request" None 0])
          (mkHeap (fun _ => mkOptions None (Some (JS.Str "a")) None None None
                              None)
                  (fun _ => mkRequest (JS.Str "GET")
                              (Some (mkAgent (JS.Str "https:"))) [])).

(** ** Further vocabulary: options, spans, installation *)

(** The options with [host] replaced. *)
Definition with_host (v : option JS.value) (u : RequestOptions)
  : RequestOptions :=
  mkOptions (protocol u) v (hostname u) (port u) (path u) (method u).

(** The options in which [host] has taken the place of [hostname]. *)
Definition host_as_hostname (u : RequestOptions) : RequestOptions :=
  mkOptions (protocol u) None (host u) (port u) (path u) (method u).

(** The status a listener gives the span: the response's status code, 500
    on an error (lines 83 and 93). *)
Definition status_of (ev : Event) : JS.value :=
  match ev with
  | EvResponse res => statusCode res
  | EvError => JS.Num 500
  end.

(** What a span shows apart from its description. *)
Definition span_view (s : Span) : nat * string * option JS.value * nat :=
  (span_parent s, span_op s, span_http_status s, finished s).

(** An entry point wrapped by the integration [this]. *)
Definition wrapped_by (this : HttpIntegration) (original : Handler)
  : Handler :=
  wrappedHandler (_breadcrumbs this) (_tracing this) original.

Definition wrapped_module (this : HttpIntegration) (m : NodeModule)
  : NodeModule :=
  mkModule (wrapped_by this (mod_get m)) (wrapped_by this (mod_request m)).

(** The span that a call starts, if it starts one. *)
Definition new_spans (t : JS.value) (options : CallArgs) (w : World)
  : list Span :=
  match started t (hub w) with
  | Some tx => [mkSpan tx (call_description (deref options w)) "request" None 0]
  | None => []
  end.

(** The listener that an event reaches: the response listener for a
    response, the error listener for an error. *)
Definition listener_of (b t : JS.value) (url : string) (options : CallArgs)
  (span : option nat) (ev : Event) : Listener :=
  if is_response ev then response_listener b t url options span
  else error_listener b t url options span.

(** The handle [h] with its listeners replaced, and with one more. *)
Definition set_listeners (h : ref) (ls : list Listener) (w : World) : World :=
  with_request h (fun e => mkRequest (req_method e) (req_agent e) ls) w.

Definition add_listener (h : ref) (l : Listener) (w : World) : World :=
  with_request h (fun e =>
    mkRequest (req_method e) (req_agent e) (listeners e ++ [l])%list) w.

(** What [wrappedHandler] does before it invokes the original handler
    (lines 63-74): the span it captures, and the world with that span. *)
Definition span_start (t : JS.value) (options : CallArgs) (w : World)
  : option nat * World :=
  match started t (hub w) with
  | Some tx =>
      (Some (List.length (spans (hub w))),
       with_spans (fun l =>
         l ++ [mkSpan tx (call_description (deref options w)) "request"
                 None 0])%list w)
  | None => (None, w)
  end.

(** What a listener that holds a span does to the view of that span. *)
Definition view_step (ev : Event)
  (v : option (nat * string * option JS.value * nat))
  : option (nat * string * option JS.value * nat) :=
  match v with
  | Some (p, o, _, f) => Some (p, o, Some (status_of ev), S f)
  | None => None
  end.

(** The view of the span at index [s], if there is one. *)
Definition view_of (s : nat) (w : World)
  : option (nat * string * option JS.value * nat) :=
  option_map span_view (nth_error (spans (hub w)) s).


(** * Properties *)

(** ** URL assembly on examples *)

Example extractUrl_host :
  extractUrl (UrlObject (mkOptions (Some (JS.Str "http:")) (Some (JS.Str "a"))
                           None None (Some (JS.Str "/")) None))
  = "http://a/".
Proof. reflexivity. Qed.

Example extractUrl_port :
  extractUrl (UrlObject (mkOptions (Some (JS.Str "http:")) None
                           (Some (JS.Str "a")) (Some (JS.Num 8080))
                           (Some (JS.Str "/x")) None))
  = "http://a:8080/x".
Proof. reflexivity. Qed.

Example extractUrl_internal :
  extractUrl (UrlObject (mkOptions None None None None
                           (Some (JS.Str "/internal")) None))
  = "/internal".
Proof. reflexivity. Qed.

Example extractUrl_port_zero :
  extractUrl (UrlObject (mkOptions (Some (JS.Str "http:")) None
                           (Some (JS.Str "a")) (Some (JS.Num 0))
                           (Some (JS.Str "/")) None))
  = "http://a/".
Proof. reflexivity. Qed.

(** ** Properties of the constructor and of installation *)

(** C10: a missing flag (or no options at all) gives breadcrumbs enabled and
    tracing disabled; a boolean that is supplied is taken as it is. *)
Theorem Http_defaults :
  Http None = mkHttp (JS.Bool true) (JS.Bool false)
  /\ (forall t,
        _breadcrumbs (Http (Some (mkHttpOptions None t))) = JS.Bool true)
  /\ (forall b, _tracing (Http (Some (mkHttpOptions b None))) = JS.Bool false)
  /\ (forall b t,
        _breadcrumbs (Http (Some (mkHttpOptions (Some (JS.Bool b)) t)))
        = JS.Bool b)
  /\ (forall b t,
        _tracing (Http (Some (mkHttpOptions b (Some (JS.Bool t)))))
        = JS.Bool t).
Proof.
  repeat split; intros; reflexivity.
Qed.

(** C7: with both flags [false] installation returns the modules as they
    are, so each of the four entry points is the original function and a
    call through it yields the original's handle and world, with the
    listeners the original left on the handle and no others. *)
Theorem setupOnce_disabled (major : JS.value) (ms : Modules) :
  let this :=
    Http (Some (mkHttpOptions (Some (JS.Bool false)) (Some (JS.Bool false)))) in
  setupOnce this major ms = ms
  /\ mod_get (httpModule (setupOnce this major ms)) = mod_get (httpModule ms)
  /\ mod_request (httpModule (setupOnce this major ms))
     = mod_request (httpModule ms)
  /\ mod_get (httpsModule (setupOnce this major ms)) = mod_get (httpsModule ms)
  /\ mod_request (httpsModule (setupOnce this major ms))
     = mod_request (httpsModule ms)
  /\ (forall options rest w h,
        fst (mod_request (httpModule (setupOnce this major ms)) options rest w)
        = Ok h ->
        fst (mod_request (httpModule ms) options rest w) = Ok h
        /\ listeners
             (requests
                (heap (snd (mod_request (httpModule (setupOnce this major ms))
                              options rest w))) h)
           = listeners
               (requests
                  (heap (snd (mod_request (httpModule ms) options rest w))) h)).
Proof.
  cbv zeta. assert (E : setupOnce (Http (Some (mkHttpOptions
                        (Some (JS.Bool false)) (Some (JS.Bool false)))))
                        major ms = ms) by reflexivity.
  rewrite E. repeat split; auto.
Qed.

(** ** Strings: prefixes, occurrences, first-occurrence replacement *)

Section StringFacts.

Lemma prefix_iff (p s : string) :
  prefix p s = true <-> exists t, s = p ++ t.
Proof.
  revert s. induction p as [|a p IH]; intros s.
  - split; [exists s; reflexivity | destruct s; reflexivity].
  - destruct s as [|b s]; simpl.
    + split; [discriminate | intros [t Ht]; discriminate].
    + destruct (ascii_dec a b) as [->|Hab].
      * rewrite IH. split; intros [t Ht]; exists t.
        -- now rewrite Ht.
        -- now injection Ht.
      * split; [discriminate | intros [t Ht]].
        injection Ht as Hb _. congruence.
Qed.

Lemma index_found_iff (p s : string) :
  (exists i, index 0 p s = Some i) <-> substring_of p s.
Proof.
  unfold substring_of. induction s as [|b s IH].
  - simpl. destruct p as [|a p].
    + split; [exists "", ""; reflexivity | eexists; reflexivity].
    + split; [intros [i Hi]; discriminate | intros (pre & post & H)].
      destruct pre; discriminate.
  - cbn [index]. destruct (prefix p (String b s)) eqn:Hp.
    + split; [intros _ | eexists; reflexivity].
      apply prefix_iff in Hp as [t Ht]. exists "", t. exact Ht.
    + split.
      * intros [i Hi]. destruct (index 0 p s) as [n|] eqn:Hn; [|discriminate].
        destruct IH as [IH _]. destruct IH as (pre & post & H); [eauto|].
        exists (String b pre), post. simpl. now rewrite H.
      * intros (pre & post & H). destruct pre as [|c pre].
        -- simpl in H. assert (prefix p (String b s) = true)
             by (apply prefix_iff; eauto).
           congruence.
        -- simpl in H. injection H as _ H.
           destruct IH as [_ IH]. destruct IH as [n Hn]; [eauto|].
           rewrite Hn. eauto.
Qed.

Lemma indexOf_found_iff (s p : string) :
  (JS.indexOf s p =? -1)%Z = false <-> substring_of p s.
Proof.
  rewrite <- index_found_iff. unfold JS.indexOf.
  destruct (index 0 p s) as [i|].
  - split; [eauto | intros _; apply Z.eqb_neq; lia].
  - split; [discriminate | intros [i Hi]; discriminate].
Qed.

End StringFacts.

(** ** The sentinel check *)

(** The sentinel check in full: [isSentryRequest] answers [true] exactly
    when the URL is not empty, a client with a DSN is configured, and the
    DSN's host occurs in the URL; so it answers [false] for the empty URL and
    whenever the client or the DSN is missing. *)
Theorem isSentryRequest_iff (url : string) (h : Hub) :
  isSentryRequest url h = true
  <-> url <> ""
      /\ exists client dsn,
           getClient h = Some client /\ getDsn client = Some dsn
           /\ substring_of (dsn_host dsn) url.
Proof.
  unfold isSentryRequest. cbn [JS.truthy].
  destruct (String.eqb_spec url "") as [->|Hne]; cbn [negb].
  { split; [discriminate | intros [H _]; now elim H]. }
  destruct (getClient h) as [c|].
  2:{ split; [discriminate | intros (_ & c & d & H & _); discriminate]. }
  destruct (getDsn c) as [d|] eqn:Hd.
  2:{ split; [discriminate | intros (_ & c' & d & H & H' & _)].
      injection H as <-. congruence. }
  rewrite negb_true_iff, indexOf_found_iff. split.
  - intros H. split; [assumption | exists c, d; auto].
  - intros (_ & c' & d' & H1 & H2 & H3). injection H1 as <-.
    rewrite Hd in H2. injection H2 as <-. assumption.
Qed.

(** The [!url] guard alone decides for the empty URL: it would matter only
    against an empty host, which occurs in every URL. *)
Lemma isSentryRequest_empty_url :
  ~ (isSentryRequest "" (hub_with_host "") = true
     <-> substring_of (dsn_host (mkDsn "")) "").
Proof.
  intros [_ H]. assert (E : isSentryRequest "" (hub_with_host "") = true).
  { apply H. exists "", "". reflexivity. }
  discriminate E.
Qed.

(** A URL in which a non-empty string occurs is not empty. *)
Lemma substring_not_empty (s url : string) :
  s <> "" -> substring_of s url -> url <> "".
Proof.
  intros Hs (pre & post & ->) H.
  destruct pre as [|c pre]; [|discriminate].
  destruct s as [|c s]; [now elim Hs | discriminate].
Qed.

(** C8: [isSentryRequest] answers [false] whenever no client or no DSN is
    configured, and otherwise, the ingestion host of a DSN being a host name
    and so not empty, it answers [true] if and only if that host occurs in
    the URL. *)
Theorem isSentryRequest_configured (url : string) (h : Hub) :
  (getClient h = None -> isSentryRequest url h = false)
  /\ (forall client,
        getClient h = Some client -> getDsn client = None ->
        isSentryRequest url h = false)
  /\ (forall client dsn,
        getClient h = Some client -> getDsn client = Some dsn ->
        dsn_host dsn <> "" ->
        (isSentryRequest url h = true <-> substring_of (dsn_host dsn) url)).
Proof.
  split; [|split].
  - intros Hc. unfold isSentryRequest. rewrite Hc.
    now destruct (negb (JS.truthy (JS.Str url))).
  - intros c Hc Hd. unfold isSentryRequest. rewrite Hc, Hd.
    now destruct (negb (JS.truthy (JS.Str url))).
  - intros c d Hc Hd Hh. rewrite isSentryRequest_iff. split.
    + intros (_ & c' & d' & Hc' & Hd' & Hsub).
      rewrite Hc in Hc'. injection Hc' as <-.
      rewrite Hd in Hd'. injection Hd' as <-. exact Hsub.
    + intros Hsub. split; [exact (substring_not_empty _ _ Hh Hsub)|].
      exists c, d. auto.
Qed.

(** A URL on the ingestion host is recognised. *)
Lemma isSentryRequest_configured_witness :
  isSentryRequest "https://o1.ingest.example.io/api/1/store/"
    (hub_with_host "ingest.example.io")
  = true.
Proof.
  destruct (isSentryRequest_configured
              "https://o1.ingest.example.io/api/1/store/"
              (hub_with_host "ingest.example.io")) as (_ & _ & H).
  apply (H (mkClient (Some (mkDsn "ingest.example.io")))
           (mkDsn "ingest.example.io")).
  - reflexivity.
  - reflexivity.
  - discriminate.
  - exists "https://o1.", "/api/1/store/". reflexivity.
Defined.

(** ** The wrapped handler: bypass and return value *)

Ltac unfold_m :=
  unfold bind, ret, reads, modify, throw, try_catch in *; cbn beta iota in *.

(** With the default flags the entry points are wrapped: a call through
    the installed [get] leaves the two listeners on the handle. *)
Example setupOnce_default_wraps :
  let original := mkModule (plain_request 0) (plain_request 0) in
  let ms := setupOnce (Http None) (JS.Num 18) (mkModules original original) in
  List.length
    (listeners
       (requests
          (heap (snd (mod_get (httpModule ms) (ArgString "http://a/") []
                        (mkWorld traced_hub empty_heap)))) 0))
  = 2%nat.
Proof. reflexivity. Qed.

(** The bypass in full: when a client with a DSN is configured and the
    normalized URL is not empty and contains the DSN's host, the wrapped
    handler is the original handler on the same arguments. *)
Theorem wrappedHandler_bypass (b t : JS.value) (orig : Handler)
  (options : CallArgs) (rest : list Extra) (w : World)
  (client : Client) (dsn : Dsn) :
  getClient (hub w) = Some client ->
  getDsn client = Some dsn ->
  extractUrl (deref options w) <> "" ->
  substring_of (dsn_host dsn) (extractUrl (deref options w)) ->
  wrappedHandler b t orig options rest w = orig options rest w.
Proof.
  intros Hc Hd Hne Hsub.
  assert (E : isSentryRequest (extractUrl (deref options w)) (hub w) = true).
  { unfold isSentryRequest. cbn [JS.truthy].
    apply String.eqb_neq in Hne. rewrite Hne, Hc, Hd. cbn [negb].
    apply negb_true_iff, indexOf_found_iff. exact Hsub. }
  unfold wrappedHandler. unfold_m. rewrite E. reflexivity.
Qed.

(** The empty URL string is always instrumented, even against an empty
    host: the handle comes back with the two listeners. *)
Lemma wrappedHandler_empty_url_instrumented :
  let w := mkWorld (hub_with_host "") empty_heap in
  substring_of (dsn_host (mkDsn "")) (extractUrl (deref (ArgString "") w))
  /\ listeners (requests (heap (snd (plain_request 0 (ArgString "") [] w))) 0)
     = []
  /\ List.length
       (listeners
          (requests
             (heap (snd (wrappedHandler (JS.Bool true) (JS.Bool false)
                           (plain_request 0) (ArgString "") [] w))) 0))
     = 2%nat.
Proof.
  cbv zeta. split; [exists "", ""; reflexivity|]. split; reflexivity.
Qed.

(** C3: when a client with a DSN is configured and the normalized URL
    contains the DSN's host (a host name, so not empty), the wrapped handler
    is the original handler on the unmodified arguments: the same result
    (or throw) and the same world afterwards, hence no span, no breadcrumb
    and no listener beyond what the original itself did. *)
Theorem wrappedHandler_bypass_sink (b t : JS.value) (orig : Handler)
  (options : CallArgs) (rest : list Extra) (w : World)
  (client : Client) (dsn : Dsn) :
  getClient (hub w) = Some client ->
  getDsn client = Some dsn ->
  dsn_host dsn <> "" ->
  substring_of (dsn_host dsn) (extractUrl (deref options w)) ->
  wrappedHandler b t orig options rest w = orig options rest w
  /\ fst (wrappedHandler b t orig options rest w)
     = fst (orig options rest w)
  /\ spans (hub (snd (wrappedHandler b t orig options rest w)))
     = spans (hub (snd (orig options rest w)))
  /\ breadcrumbs (hub (snd (wrappedHandler b t orig options rest w)))
     = breadcrumbs (hub (snd (orig options rest w)))
  /\ requests (heap (snd (wrappedHandler b t orig options rest w)))
     = requests (heap (snd (orig options rest w))).
Proof.
  intros Hc Hd Hh Hsub.
  assert (E : wrappedHandler b t orig options rest w = orig options rest w).
  { apply (wrappedHandler_bypass b t orig options rest w client dsn);
      try assumption.
    exact (substring_not_empty _ _ Hh Hsub). }
  rewrite E. repeat split.
Qed.

(** A call to the ingestion host goes straight to the original. *)
Lemma wrappedHandler_bypass_sink_witness :
  wrappedHandler (JS.Bool true) (JS.Bool true) (plain_request 0)
    (ArgString "https://o1.ingest.example.io/api/1/store/") [7]
    (mkWorld (hub_with_host "ingest.example.io") empty_heap)
  = plain_request 0
      (ArgString "https://o1.ingest.example.io/api/1/store/") [7]
      (mkWorld (hub_with_host "ingest.example.io") empty_heap).
Proof.
  apply (wrappedHandler_bypass_sink (JS.Bool true) (JS.Bool true)
           (plain_request 0)
           (ArgString "https://o1.ingest.example.io/api/1/store/") [7]
           (mkWorld (hub_with_host "ingest.example.io") empty_heap)
           (mkClient (Some (mkDsn "ingest.example.io")))
           (mkDsn "ingest.example.io")).
  - reflexivity.
  - reflexivity.
  - discriminate.
  - exists "https://o1.", "/api/1/store/". reflexivity.
Defined.

(** C6: whatever the flags, the arguments and the world, the wrapped handler
    returns what the original handler returned when it was invoked inside
    (the same handle, or the same throw); the original runs on the caller's
    heap, and for an entry point of Node itself the result is the one of the
    unwrapped call. *)
Theorem wrappedHandler_returns_original (b t : JS.value)
  (options : CallArgs) (rest : list Extra) (w : World) :
  (forall orig : Handler,
      exists w', heap w' = heap w
                 /\ fst (wrappedHandler b t orig options rest w)
                    = fst (orig options rest w'))
  /\ (forall f : NodeHandler,
        fst (wrappedHandler b t (native f) options rest w)
        = fst (f options rest (heap w))).
Proof.
  assert (G : forall orig : Handler,
    exists w', heap w' = heap w
               /\ fst (wrappedHandler b t orig options rest w)
                  = fst (orig options rest w')).
  { intros orig. unfold wrappedHandler. unfold_m.
    destruct (isSentryRequest _ _); [exists w; auto|].
    assert (K : forall w0 span,
      fst (let (r, w') := orig options rest w0 in
           match r with
           | Ok a =>
               let (r0, w'0) :=
                 once a "response"
                   (OnResponse b t (extractUrl (deref options w)) options span)
                   w' in
               match r0 with
               | Ok a0 =>
                   once a0 "error"
                     (OnError b t (extractUrl (deref options w)) options span)
                     w'0
               | Throw e => (Throw e, w'0)
               end
           | Throw e => (Throw e, w')
           end) = fst (orig options rest w0)).
    { intros w0 span. destruct (orig options rest w0) as [[h|e] w1];
        reflexivity. }
    destruct (getScope (hub w)) as [sc|]; [|exists w; auto].
    destruct (JS.truthy t); [|exists w; auto].
    destruct (getTransaction sc) as [tx|]; [|exists w; auto].
    unfold startChild. unfold_m. eexists. split; [|apply K]. reflexivity. }
  split.
  - exact G.
  - intros f. destruct (G (native f)) as (w' & H1 & H2).
    rewrite H2. unfold native. rewrite H1.
    destruct (f options rest (heap w)); reflexivity.
Qed.

(** ** URL normalization against its reference definitions *)

Section Collapse.

Lemma substring_all (s : string) : substring 0 (length s) s = s.
Proof. induction s as [|c s IH]; simpl; [reflexivity | now rewrite IH]. Qed.

Lemma substring_drop (n : nat) (s : string) :
  substring n (length s - n) s = JS.drop n s.
Proof.
  revert s. induction n as [|n IH]; intros s.
  - rewrite Nat.sub_0_r. apply substring_all.
  - destruct s as [|c s]; simpl; [reflexivity | apply IH].
Qed.

Lemma replace_by_index (pat rep s : string) :
  JS.replace pat rep s
  = match index 0 pat s with
    | Some i =>
        substring 0 i s ++ rep
          ++ substring (i + length pat) (length s - (i + length pat)) s
    | None => s
    end.
Proof.
  induction s as [|c s IH].
  - destruct pat; reflexivity.
  - cbn [JS.replace index]. destruct (prefix pat (String c s)) eqn:Hp.
    + now rewrite substring_drop.
    + rewrite IH. destruct (index 0 pat s) as [i|]; reflexivity.
Qed.

End Collapse.

Section Components.

Variable u : RequestOptions.

Lemma protocol_component :
  JS.ToString (JS.or (JS.get (protocol u)) (JS.Str ""))
  = first_of [protocol u] "".
Proof. unfold JS.or. simpl. now destruct (JS.truthy (JS.get (protocol u))). Qed.

Lemma hostname_component :
  JS.ToString
    (JS.or (JS.or (JS.get (hostname u)) (JS.get (host u))) (JS.Str ""))
  = first_of [hostname u; host u] "".
Proof.
  unfold JS.or. simpl.
  destruct (JS.truthy (JS.get (hostname u))) eqn:Hn; [now rewrite Hn|].
  now destruct (JS.truthy (JS.get (host u))).
Qed.

Lemma port_component :
  (if negb (JS.truthy (JS.get (port u)))
      || JS.strict_eq (JS.get (port u)) (JS.Num 80)
      || JS.strict_eq (JS.get (port u)) (JS.Num 443)
   then ""
   else ":" ++ JS.ToString (JS.get (port u)))
  = port_suffix (port u).
Proof.
  unfold port_suffix.
  destruct (JS.get (port u)) as [| |b|n|s]; simpl; try reflexivity.
  - now destruct b.
  - destruct (n =? 0)%Z; simpl; [reflexivity|].
    now destruct ((n =? 80)%Z || (n =? 443)%Z).
  - now destruct (s =? "").
Qed.

Lemma path_component :
  JS.ToString
    (if JS.truthy (JS.get (path u)) then JS.get (path u) else JS.Str "/")
  = path_or_slash (path u).
Proof.
  unfold path_or_slash. simpl. now destruct (JS.truthy (JS.get (path u))).
Qed.

End Components.

(** The assembly that [extractUrl] collapses, by components. *)
Lemma extractUrl_assembly (u : RequestOptions) :
  extractUrl (UrlObject u)
  = JS.replace "///" "/"
      (first_of [protocol u] "" ++ "//" ++ first_of [hostname u; host u] ""
         ++ port_suffix (port u) ++ path_or_slash (path u)).
Proof.
  unfold extractUrl.
  now rewrite protocol_component, hostname_component, port_component,
    path_component.
Qed.

(** C4, as the code has it: [extractUrl] is the reference definition in
    which a property counts only when it is truthy: a string is returned
    unchanged; an object is assembled from protocol, ["//"], the first of
    hostname and host, the port suffix (empty for a missing, falsy, 80 or
    443 port) and the path (["/"] for a missing or empty path), and the
    first ["///"] of the assembly is collapsed to ["/"]. *)
Theorem extractUrl_is_normalize (callArgs : UrlLike) :
  extractUrl callArgs = normalize callArgs.
Proof.
  destruct callArgs as [s|u]; [reflexivity|].
  rewrite extractUrl_assembly. unfold normalize.
  rewrite replace_by_index. reflexivity.
Qed.

(** C4 as the spec words it fails on a path that is present and empty: the
    code appends ["/"], the reference definition appends the path. *)
Lemma extractUrl_empty_path :
  extractUrl (UrlObject empty_path_options) = "http://a/"
  /\ spec_normalize (UrlObject empty_path_options) = "http://a"
  /\ extractUrl (UrlObject empty_path_options)
     <> spec_normalize (UrlObject empty_path_options).
Proof. repeat split. discriminate. Qed.

(** ** The port suffix *)

Section Occurrences.

Variable c : ascii.

Lemma prefix_nil (s : string) : prefix "" s = true.
Proof. now destruct s. Qed.

Lemma prefix_cons (a b : ascii) (q s : string) :
  prefix (String a q) (String b s) = Ascii.eqb a b && prefix q s.
Proof.
  simpl. destruct (ascii_dec a b) as [->|Hab].
  - now rewrite Ascii.eqb_refl.
  - apply Ascii.eqb_neq in Hab. now rewrite Hab.
Qed.

Lemma prefix_stops_at (q x z : string) :
  has_char c q = false -> prefix q (x ++ String c z) = prefix q x.
Proof.
  revert x. induction q as [|a q IH]; intros x Hq.
  - now rewrite !prefix_nil.
  - cbn [has_char] in Hq. apply orb_false_iff in Hq as [Hac Hq].
    destruct x as [|b x].
    + cbn [append]. rewrite prefix_cons, Hac. reflexivity.
    + cbn [append]. rewrite !prefix_cons, IH by assumption. reflexivity.
Qed.

Lemma occurrences_skip (d e y : string) :
  has_char c e = false ->
  occurrences (String c d) (e ++ y) = occurrences (String c d) y.
Proof.
  intros He. induction e as [|a e IH]; [reflexivity|].
  cbn [has_char] in He. apply orb_false_iff in He as [Hac He].
  cbn [append occurrences]. rewrite prefix_cons, IH by assumption.
  rewrite Ascii.eqb_sym, Hac. reflexivity.
Qed.

Lemma occurrences_inserted (d x y : string) :
  has_char c d = false ->
  occurrences (String c d) (x ++ String c d ++ y)
  = occurrences (String c d) x + 1 + occurrences (String c d) y.
Proof.
  intros Hd. change (String c d ++ y) with (String c (d ++ y)).
  induction x as [|b x IH].
  - cbn [append occurrences]. rewrite prefix_cons, Ascii.eqb_refl.
    assert (P : prefix d (d ++ y) = true) by (apply prefix_iff; eauto).
    rewrite P, occurrences_skip by assumption. reflexivity.
  - cbn [append occurrences]. rewrite IH.
    rewrite !prefix_cons, prefix_stops_at by assumption. lia.
Qed.

End Occurrences.

Section ReplaceKeepsOccurrences.

Let slash : ascii := "/"%char.

Lemma triple_slash_shape (s : string) :
  prefix "///" s = true -> exists t, s = "///" ++ t.
Proof. apply prefix_iff. Qed.

Lemma prefix_replace (q s : string) :
  has_char slash q = false ->
  prefix q (JS.replace "///" "/" s) = prefix q s.
Proof.
  revert s. induction q as [|a q IH]; intros s Hq.
  - now rewrite !prefix_nil.
  - cbn [has_char] in Hq. apply orb_false_iff in Hq as [Ha Hq].
    destruct s as [|b s]; [reflexivity|].
    cbn [JS.replace]. destruct (prefix "///" (String b s)) eqn:Hp.
    + apply triple_slash_shape in Hp as [t Ht]. rewrite Ht.
      cbn [append JS.drop length]. rewrite !prefix_cons.
      fold slash. rewrite Ha. reflexivity.
    + rewrite !prefix_cons, IH by assumption. reflexivity.
Qed.

Lemma occurrences_slash (a : ascii) (q s : string) :
  Ascii.eqb a slash = false ->
  occurrences (String a q) (String slash s) = occurrences (String a q) s.
Proof.
  intros Ha. cbn [occurrences]. now rewrite prefix_cons, Ha.
Qed.

Lemma occurrences_replace (a : ascii) (q s : string) :
  has_char slash (String a q) = false ->
  occurrences (String a q) (JS.replace "///" "/" s)
  = occurrences (String a q) s.
Proof.
  intros Hq. pose proof Hq as Hq'. cbn [has_char] in Hq'.
  apply orb_false_iff in Hq' as [Ha Hq'].
  induction s as [|b s IH]; [reflexivity|].
  cbn [JS.replace]. destruct (prefix "///" (String b s)) eqn:Hp.
  - apply triple_slash_shape in Hp as [t Ht]. rewrite Ht.
    cbn [append JS.drop length]. fold slash.
    now rewrite !occurrences_slash.
  - cbn [occurrences]. rewrite IH. f_equal.
    rewrite !prefix_cons, prefix_replace by assumption. reflexivity.
Qed.

End ReplaceKeepsOccurrences.

Section Decimal.

Variable c : ascii.
Hypothesis not_a_digit :
  has_char c "0123456789" = false.
Hypothesis not_a_minus : Ascii.eqb "-"%char c = false.

Lemma uint_digits (d : Decimal.uint) :
  has_char c (NilEmpty.string_of_uint d) = false.
Proof.
  cbn [has_char] in not_a_digit.
  repeat (apply orb_false_iff in not_a_digit as [? not_a_digit]).
  induction d; cbn [NilEmpty.string_of_uint has_char]; rewrite ?IHd;
    try reflexivity;
    match goal with H : ?e = false |- ?e || false = false =>
      now rewrite H end.
Qed.

Lemma number_digits (n : Z) : has_char c (JS.ToString (JS.Num n)) = false.
Proof.
  unfold JS.ToString, NilZero.string_of_int.
  assert (U : forall d, has_char c (NilZero.string_of_uint d) = false).
  { intros d. pose proof (uint_digits d) as H.
    destruct d; try exact H.
    cbn [has_char] in not_a_digit.
    apply orb_false_iff in not_a_digit as [H0 _].
    cbn [NilZero.string_of_uint has_char]. now rewrite H0. }
  destruct (Z.to_int n); [apply U|].
  cbn [has_char]. now rewrite not_a_minus, U.
Qed.

End Decimal.

Lemma append_assoc (a b c : string) : (a ++ b) ++ c = a ++ b ++ c.
Proof. induction a as [|x a IH]; simpl; [reflexivity | now rewrite IH]. Qed.

Lemma port_suffix_none (p : option JS.value) :
  negb (JS.truthy (JS.get p)) || is_default_port (JS.get p) = true ->
  port_suffix p = "".
Proof.
  unfold port_suffix. intros H.
  destruct (JS.truthy (JS.get p)); [|reflexivity].
  cbn [negb orb] in H. now rewrite H.
Qed.

Lemma port_suffix_number (n : Z) :
  n <> 0%Z -> n <> 80%Z -> n <> 443%Z ->
  port_suffix (Some (JS.Num n)) = ":" ++ JS.ToString (JS.Num n).
Proof.
  intros H0 H80 H443. unfold port_suffix.
  cbn [JS.get JS.truthy is_default_port].
  apply Z.eqb_neq in H0, H80, H443. now rewrite H0, H80, H443.
Qed.

(** C5 as the spec words it fails for the numeric port 0, which adds no
    suffix at all, and for a host that already holds the suffix, where it
    occurs twice. *)
Lemma extractUrl_port_zero_no_suffix :
  extractUrl (UrlObject port_zero_options) = "http://a/"
  /\ occurrences (":" ++ JS.ToString (JS.Num 0))
       (extractUrl (UrlObject port_zero_options)) = 0%nat
  /\ extractUrl (UrlObject port_in_host_options) = "http://a:8080:8080/"
  /\ occurrences (":" ++ JS.ToString (JS.Num 8080))
       (extractUrl (UrlObject port_in_host_options)) = 2%nat.
Proof. repeat split. Qed.

(** C5, as the code has it: a port that is absent (or otherwise falsy, as
    the number 0 is), or 80 or 443, adds nothing: the URL is the one of the
    same options without port.  A numeric port other than 0, 80 and 443
    inserts [":" + port] once, between host and path, so the suffix occurs
    in the URL once more than in the parts before and after it together:
    exactly once when they do not hold it. *)
Theorem extractUrl_port_suffix (u : RequestOptions) :
  (negb (JS.truthy (JS.get (port u))) || is_default_port (JS.get (port u))
   = true ->
   extractUrl (UrlObject u) = extractUrl (UrlObject (without_port u)))
  /\ (forall p : Z,
        port u = Some (JS.Num p) -> p <> 0%Z -> p <> 80%Z -> p <> 443%Z ->
        let suffix := ":" ++ JS.ToString (JS.Num p) in
        extractUrl (UrlObject u)
        = JS.replace "///" "/"
            (before_port u ++ suffix ++ path_or_slash (path u))
        /\ occurrences suffix (extractUrl (UrlObject u))
           = (occurrences suffix (before_port u) + 1
              + occurrences suffix (path_or_slash (path u)))%nat
        /\ (occurrences suffix (before_port u) = 0%nat ->
            occurrences suffix (path_or_slash (path u)) = 0%nat ->
            occurrences suffix (extractUrl (UrlObject u)) = 1%nat)).
Proof.
  split.
  - intros H. rewrite !extractUrl_assembly.
    now rewrite (port_suffix_none _ H).
  - intros p Hp H0 H80 H443 suffix.
    assert (E : extractUrl (UrlObject u)
                = JS.replace "///" "/"
                    (before_port u ++ suffix ++ path_or_slash (path u))).
    { rewrite extractUrl_assembly, Hp, port_suffix_number by assumption.
      unfold before_port. now rewrite !append_assoc. }
    assert (O : occurrences suffix (extractUrl (UrlObject u))
                = (occurrences suffix (before_port u) + 1
                   + occurrences suffix (path_or_slash (path u)))%nat).
    { rewrite E. subst suffix.
      change (":" ++ JS.ToString (JS.Num p))
        with (String ":" (JS.ToString (JS.Num p))).
      rewrite occurrences_replace.
      - apply occurrences_inserted. now apply number_digits.
      - cbn [has_char]. rewrite number_digits by reflexivity. reflexivity. }
    split; [exact E|]. split; [exact O|].
    intros Hb Hpath. rewrite O, Hb, Hpath. reflexivity.
Qed.

(** The port 8080 of [{protocol: 'http:', hostname: 'a', port: 8080,
    path: '/x'}] shows once in the URL. *)
Lemma extractUrl_port_suffix_witness :
  occurrences (":" ++ JS.ToString (JS.Num 8080))
    (extractUrl
       (UrlObject (mkOptions (Some (JS.Str "http:")) None (Some (JS.Str "a"))
                     (Some (JS.Num 8080)) (Some (JS.Str "/x")) None)))
  = 1%nat.
Proof.
  apply (extractUrl_port_suffix
           (mkOptions (Some (JS.Str "http:")) None (Some (JS.Str "a"))
              (Some (JS.Num 8080)) (Some (JS.Str "/x")) None));
    try reflexivity; discriminate.
Defined.

(** ** Laws of [runs] *)

Section Runs.

Context {A B : Type}.

Lemma runs_ret (a : A) (w : World) : runs (ret a) w a w.
Proof. reflexivity. Qed.

Lemma runs_reads (f : World -> A) (w : World) : runs (reads f) w (f w) w.
Proof. reflexivity. Qed.

Lemma runs_bind (m : M A) (k : A -> M B) (w w1 w2 : World) (a : A) (b : B) :
  runs m w a w1 -> runs (k a) w1 b w2 -> runs (bind m k) w b w2.
Proof. unfold runs, bind. intros -> H. exact H. Qed.

End Runs.

Lemma runs_modify (f : World -> World) (w : World) :
  runs (modify f) w tt (f w).
Proof. reflexivity. Qed.

(** ** Effects of the sink operations on the observation *)

Lemma map_update_nth {X Y : Type} (g : X -> Y) (f : X -> X) (f' : Y -> Y)
  (n : nat) (l : list X) :
  (forall x, g (f x) = f' (g x)) ->
  map g (update_nth n f l) = update_nth n f' (map g l).
Proof.
  intros H. revert n. induction l as [|x l IH]; intros [|n]; simpl;
    rewrite ?H, ?IH; reflexivity.
Qed.

Lemma update_nth_id {X : Type} (n : nat) (l : list X) :
  update_nth n (fun x => x) l = l.
Proof.
  revert n. induction l as [|x l IH]; intros [|n]; simpl; rewrite ?IH;
    reflexivity.
Qed.

Lemma map_finished_kept (f : Span -> Span) (n : nat) (l : list Span) :
  (forall s, finished (f s) = finished s) ->
  map finished (update_nth n f l) = map finished l.
Proof.
  intros H. rewrite (map_update_nth finished f (fun x => x)) by assumption.
  apply update_nth_id.
Qed.

Section Effects.

Variable h : ref.

Lemma setHttpStatus_effect (s : nat) (code : JS.value) (w : World) :
  exists w', runs (setHttpStatus s code) w tt w' /\ observe h w' = observe h w.
Proof.
  eexists. split; [apply runs_modify|].
  unfold observe, with_spans. cbn [hub heap spans breadcrumbs getIntegration].
  now rewrite map_finished_kept.
Qed.

Lemma set_description_effect (s : nat) (d : string) (w : World) :
  exists w', runs (set_description s d) w tt w' /\ observe h w' = observe h w.
Proof.
  eexists. split; [apply runs_modify|].
  unfold observe, with_spans. cbn [hub heap spans breadcrumbs getIntegration].
  now rewrite map_finished_kept.
Qed.

Lemma finish_effect (s : nat) (t : JS.value) (w : World) :
  JS.truthy t = true ->
  exists w', runs (finish s) w tt w'
             /\ observe h w' = finish_step t (Some s) (observe h w).
Proof.
  intros Ht. eexists. split; [apply runs_modify|].
  unfold observe, with_spans, finish_step. rewrite Ht.
  cbn [hub heap spans breadcrumbs getIntegration o_crumbs o_finished
         o_installed o_method o_listeners].
  now rewrite (map_update_nth finished _ S).
Qed.

Lemma cleanDescription_effect (requestOptions : CallArgs) (response : ref)
  (s : nat) (w : World) :
  exists w', runs (cleanDescription requestOptions response s) w tt w'
             /\ observe h w' = observe h w.
Proof.
  unfold cleanDescription. destruct requestOptions as [u|r].
  { exists w. split; reflexivity. }
  unfold runs. unfold_m.
  destruct (negb (has_key (protocol (objects (heap w) r)))
            && JS.truthy (JS.get (host (objects (heap w) r)))).
  2:{ exists w. split; reflexivity. }
  unfold read_agent_protocol. unfold_m.
  destruct (req_agent (requests (heap w) response)) as [a|].
  2:{ exists w. split; reflexivity. }
  unfold set_description. unfold_m.
  eexists. split; [reflexivity|].
  unfold observe, with_spans, with_object.
  cbn [hub heap spans breadcrumbs getIntegration requests].
  now rewrite map_finished_kept.
Qed.

Lemma addRequestBreadcrumb_effect (b : JS.value) (url : string) (ev : Event)
  (w : World) :
  JS.truthy b = true ->
  exists w',
    runs (addRequestBreadcrumb (event_name ev) url h (payload ev)) w tt w'
    /\ observe h w' = crumb_step b url h ev (observe h w).
Proof.
  intros Hb. unfold addRequestBreadcrumb, runs, crumb_step. unfold_m.
  rewrite Hb. cbn [observe o_installed andb].
  destruct (getIntegration (hub w)) eqn:Hi.
  - eexists. split; [reflexivity|].
    unfold observe, with_breadcrumbs, crumb_for.
    cbn [hub heap spans breadcrumbs getIntegration]. now rewrite Hi.
  - exists w. split; reflexivity.
Qed.

End Effects.

(** ** Effects of the two listeners and of delivery *)

Section OneCall.

(** The variables the two closures capture, and the handle. *)
Variables (b t : JS.value) (url : string) (options : CallArgs)
          (span : option nat) (h : ref).

Lemma listener_step_listeners (ev : Event) (ls : list Listener) (o : Obs) :
  listener_step b t url span h ev (with_listeners ls o)
  = with_listeners ls (listener_step b t url span h ev o).
Proof.
  unfold listener_step, finish_step, crumb_step, with_listeners.
  cbn [o_installed o_crumbs o_finished o_method o_listeners].
  destruct (JS.truthy b && o_installed o), span as [s|], (JS.truthy t);
    reflexivity.
Qed.

Lemma tail_effect (ev : Event) (w : World) :
  exists w',
    runs (if JS.truthy t then
            match span with
            | Some s =>
                setHttpStatus s
                  (match payload ev with
                   | Some res => statusCode res
                   | None => JS.Num 500
                   end) ;;
                cleanDescription options h s ;;
                finish s
            | None => ret tt
            end
          else ret tt) w tt w'
    /\ observe h w' = finish_step t span (observe h w).
Proof.
  unfold finish_step. destruct (JS.truthy t) eqn:Ht.
  2:{ exists w. split; [reflexivity|]. now destruct span. }
  destruct span as [s|]; [|exists w; split; reflexivity].
  destruct (setHttpStatus_effect h s
              (match payload ev with
               | Some res => statusCode res
               | None => JS.Num 500
               end) w) as (w1 & R1 & O1).
  destruct (cleanDescription_effect h options h s w1) as (w2 & R2 & O2).
  destruct (finish_effect h s t w2 Ht) as (w3 & R3 & O3).
  exists w3. split.
  - eapply runs_bind; [exact R1|]. eapply runs_bind; [exact R2|exact R3].
  - rewrite O3, O2, O1. unfold finish_step. now rewrite Ht.
Qed.

Lemma head_effect (ev : Event) (w : World) :
  exists w',
    runs (if JS.truthy b
          then addRequestBreadcrumb (event_name ev) url h (payload ev)
          else ret tt) w tt w'
    /\ observe h w' = crumb_step b url h ev (observe h w).
Proof.
  destruct (JS.truthy b) eqn:Hb.
  - now apply addRequestBreadcrumb_effect.
  - exists w. split; [reflexivity|]. unfold crumb_step. now rewrite Hb.
Qed.

Lemma response_listener_effect (res : Response) (w : World) :
  exists w',
    runs (run_callback (callback (response_listener b t url options span))
            h (EvResponse res))
      w tt w'
    /\ observe h w'
       = listener_step b t url span h (EvResponse res) (observe h w).
Proof.
  destruct (head_effect (EvResponse res) w) as (w1 & R1 & O1).
  destruct (tail_effect (EvResponse res) w1) as (w2 & R2 & O2).
  exists w2. split.
  - cbn [callback response_listener run_callback].
    eapply runs_bind; [exact R1|].
    cbn [payload] in R2 |- *. destruct span; exact R2.
  - unfold listener_step. now rewrite O2, O1.
Qed.

Lemma error_listener_effect (w : World) :
  exists w',
    runs (run_callback (callback (error_listener b t url options span))
            h EvError) w tt w'
    /\ observe h w' = listener_step b t url span h EvError (observe h w).
Proof.
  destruct (head_effect EvError w) as (w1 & R1 & O1).
  destruct (tail_effect EvError w1) as (w2 & R2 & O2).
  exists w2. split.
  - cbn [callback error_listener run_callback].
    eapply runs_bind; [exact R1|exact R2].
  - unfold listener_step. now rewrite O2, O1.
Qed.

End OneCall.

Section Delivery.

Variables (b t : JS.value) (url : string) (options : CallArgs)
          (span : option nat) (h : ref).

Lemma run_foreign (ls : list Listener) (ev : Event) (w : World) :
  Forall foreign ls -> runs (run_listeners ls h ev) w tt w.
Proof.
  induction 1 as [|l ls Hl _ IH]; [reflexivity|].
  cbn [run_listeners]. eapply runs_bind; [|exact IH].
  unfold foreign in Hl. destruct (callback l); try contradiction.
  reflexivity.
Qed.

Lemma run_listeners_app (l1 l2 : list Listener) (ev : Event)
  (w w1 w2 : World) :
  runs (run_listeners l1 h ev) w tt w1 ->
  runs (run_listeners l2 h ev) w1 tt w2 ->
  runs (run_listeners (l1 ++ l2) h ev) w tt w2.
Proof.
  revert w. induction l1 as [|l l1 IH]; intros w R1 R2.
  - unfold runs in R1. cbn in R1. injection R1 as <-. exact R2.
  - cbn [app run_listeners] in *. unfold runs, bind in *.
    destruct (run_callback (callback l) h ev w) as [[[]|e] w0];
      [|discriminate].
    now apply IH.
Qed.

Lemma filter_foreign (f : Listener -> bool) (F : list Listener) :
  Forall foreign F -> Forall foreign (filter f F).
Proof.
  intros HF. apply Forall_forall. intros l Hl.
  apply filter_In in Hl as [Hl _].
  now apply (proj1 (Forall_forall _ _) HF).
Qed.

Lemma observe_with_listeners (ls : list Listener) (w : World) :
  observe h
    (with_request h (fun e => mkRequest (req_method e) (req_agent e) ls) w)
  = with_listeners ls (observe h w).
Proof.
  unfold observe, with_request, with_listeners, upd.
  cbn [hub heap requests o_crumbs o_finished o_installed o_method].
  now rewrite Nat.eqb_refl.
Qed.

(** One delivery. *)
Lemma emit_effect (ev : Event) (F : list Listener) (pr pe : bool)
  (w : World) :
  Forall foreign F ->
  o_listeners (observe h w) = call_listeners b t url options span F pr pe ->
  exists w' F',
    runs (emit h ev) w tt w'
    /\ Forall foreign F'
    /\ observe h w'
       = with_listeners
           (call_listeners b t url options span F' (pr && negb (is_response ev))
              (pe && is_response ev))
           (if is_response ev
            then if pr then listener_step b t url span h ev (observe h w)
                 else observe h w
            else if pe then listener_step b t url span h ev (observe h w)
                 else observe h w).
Proof.
  intros HF HL. cbn [observe o_listeners] in HL.
  set (Lr := response_listener b t url options span) in *.
  set (Le := error_listener b t url options span) in *.
  set (keep := fun l : Listener => negb (hears ev l && one_shot l)).
  set (w0 := with_request h (fun e =>
               mkRequest (req_method e) (req_agent e)
                 (filter keep (listeners (requests (heap w) h)))) w).
  assert (R0 : forall w2,
             runs (run_listeners
                     (filter (hears ev) (listeners (requests (heap w) h)))
                     h ev) w0 tt w2 ->
             runs (emit h ev) w tt w2).
  { intros w2 R. unfold emit. eapply runs_bind; [apply runs_reads|].
    eapply runs_bind; [apply runs_modify|]. exact R. }
  assert (O0 : observe h w0
               = with_listeners
                   (filter keep (call_listeners b t url options span F pr pe))
                   (observe h w)).
  { unfold w0. rewrite observe_with_listeners. now rewrite HL. }
  rewrite HL in R0. unfold call_listeners in R0, O0 |- *.
  fold Lr Le in R0, O0 |- *.
  rewrite !filter_app in R0, O0.
  pose proof (run_foreign (filter (hears ev) F) ev w0
                (filter_foreign _ _ HF)) as RF.
  destruct ev as [res|].
  - (* response *)
    cbn [is_response negb]. rewrite andb_false_r, andb_true_r.
    assert (Kr : filter keep (pending pr Lr) = []) by now destruct pr.
    assert (Ke : filter keep (pending pe Le) = pending pe Le)
      by now destruct pe.
    assert (He : filter (hears (EvResponse res)) (pending pe Le) = [])
      by now destruct pe.
    rewrite Kr, Ke in O0. rewrite He, app_nil_r in R0.
    destruct pr.
    + destruct (response_listener_effect b t url options span h res w0)
        as (w1 & R1 & O1).
      exists w1, (filter keep F). split; [|split].
      * apply R0. eapply run_listeners_app; [exact RF|].
        change (filter (hears (EvResponse res)) (pending true Lr))
          with [Lr].
        cbn [run_listeners]. eapply runs_bind; [exact R1|reflexivity].
      * now apply filter_foreign.
      * rewrite O1, O0. apply listener_step_listeners.
    + exists w0, (filter keep F). split; [|split].
      * apply R0. cbn [pending filter]. now rewrite app_nil_r.
      * now apply filter_foreign.
      * exact O0.
  - (* error *)
    cbn [is_response negb]. rewrite andb_false_r, andb_true_r.
    assert (Kr : filter keep (pending pr Lr) = pending pr Lr)
      by now destruct pr.
    assert (Ke : filter keep (pending pe Le) = []) by now destruct pe.
    assert (Hr : filter (hears EvError) (pending pr Lr) = [])
      by now destruct pr.
    rewrite Kr, Ke in O0. rewrite Hr in R0. cbn [app] in R0.
    destruct pe.
    + destruct (error_listener_effect b t url options span h w0)
        as (w1 & R1 & O1).
      exists w1, (filter keep F). split; [|split].
      * apply R0. eapply run_listeners_app; [exact RF|].
        change (filter (hears EvError) (pending true Le)) with [Le].
        cbn [run_listeners]. eapply runs_bind; [exact R1|reflexivity].
      * now apply filter_foreign.
      * rewrite O1, O0. apply listener_step_listeners.
    + exists w0, (filter keep F). split; [|split].
      * apply R0. cbn [pending filter]. now rewrite app_nil_r.
      * now apply filter_foreign.
      * exact O0.
Qed.

End Delivery.

Lemma fired_none (evs : list Event) (pr pe : bool) :
  (forall e, In e evs -> (if is_response e then pr else pe) = false) ->
  fired evs pr pe = [].
Proof.
  revert pr pe. induction evs as [|ev evs IH]; intros pr pe H; [reflexivity|].
  cbn [fired]. pose proof (H ev (or_introl eq_refl)) as Hev.
  destruct (is_response ev) eqn:Hk; subst.
  - apply IH. intros e He. specialize (H e (or_intror He)).
    now destruct (is_response e).
  - apply IH. intros e He. specialize (H e (or_intror He)).
    now destruct (is_response e).
Qed.

Lemma first_events_one_kind (ev : Event) (evs : list Event) :
  one_kind (ev :: evs) -> first_events (ev :: evs) = [ev].
Proof.
  intros H. unfold first_events. cbn [fired].
  assert (K : forall e, In e evs -> is_response e = is_response ev).
  { intros e He. apply H; [right; exact He | left; reflexivity]. }
  destruct (is_response ev) eqn:Hk; rewrite fired_none; try reflexivity;
    intros e He; now rewrite (K e He).
Qed.

Section Traces.

Variables (b t : JS.value) (url : string) (options : CallArgs)
          (span : option nat) (h : ref).

Lemma deliver_obs_listeners (evs : list Event) (pr pe : bool)
  (ls : list Listener) (o : Obs) :
  deliver_obs b t url span h evs pr pe (with_listeners ls o)
  = with_listeners ls (deliver_obs b t url span h evs pr pe o).
Proof.
  revert pr pe o. induction evs as [|ev evs IH]; intros pr pe o;
    [reflexivity|].
  cbn [deliver_obs].
  destruct (is_response ev), pr, pe;
    rewrite ?listener_step_listeners; apply IH.
Qed.

(** A whole sequence of deliveries. *)
Lemma deliver_effect (evs : list Event) (F : list Listener) (pr pe : bool)
  (w : World) :
  Forall foreign F ->
  o_listeners (observe h w) = call_listeners b t url options span F pr pe ->
  exists w' ls,
    runs (deliver h evs) w tt w'
    /\ observe h w'
       = with_listeners ls
           (deliver_obs b t url span h evs pr pe (observe h w)).
Proof.
  revert F pr pe w. induction evs as [|ev evs IH]; intros F pr pe w HF HL.
  - exists w, (o_listeners (observe h w)). split; [reflexivity|].
    now destruct (observe h w).
  - destruct (emit_effect b t url options span h ev F pr pe w HF HL)
      as (w1 & F1 & R1 & HF1 & O1).
    assert (HL1 : o_listeners (observe h w1)
                  = call_listeners b t url options span F1
                      (pr && negb (is_response ev)) (pe && is_response ev))
      by now rewrite O1.
    destruct (IH _ _ _ _ HF1 HL1) as (w2 & ls & R2 & O2).
    exists w2, ls. split.
    + cbn [deliver]. eapply runs_bind; [exact R1|exact R2].
    + rewrite O2, O1, deliver_obs_listeners. cbn [deliver_obs].
      destruct (is_response ev); cbn [negb];
        rewrite ?andb_true_r, ?andb_false_r; reflexivity.
Qed.

Lemma deliver_obs_crumbs (evs : list Event) (pr pe : bool) (o : Obs) :
  o_crumbs (deliver_obs b t url span h evs pr pe o)
  = (o_crumbs o
     ++ if JS.truthy b && o_installed o
        then map (crumb_for url h (o_method o)) (fired evs pr pe)
        else [])%list.
Proof.
  assert (S1 : forall ev o,
    o_installed (listener_step b t url span h ev o) = o_installed o
    /\ o_method (listener_step b t url span h ev o) = o_method o
    /\ o_crumbs (listener_step b t url span h ev o)
       = (o_crumbs o
          ++ if JS.truthy b && o_installed o
             then [crumb_for url h (o_method o) ev] else [])%list).
  { intros ev o0. unfold listener_step, finish_step, crumb_step.
    destruct (JS.truthy b && o_installed o0), span as [s|], (JS.truthy t);
      cbn [o_installed o_method o_crumbs]; rewrite ?app_nil_r; auto. }
  revert pr pe o. induction evs as [|ev evs IH]; intros pr pe o.
  - cbn [deliver_obs fired]. destruct (JS.truthy b && o_installed o);
      now rewrite app_nil_r.
  - cbn [deliver_obs fired]. destruct (S1 ev o) as (Si & Sm & Sc).
    destruct (is_response ev), pr, pe; rewrite IH, ?Si, ?Sm, ?Sc;
      destruct (JS.truthy b && o_installed o); cbn [map app];
      rewrite <- ?app_assoc; reflexivity.
Qed.

Lemma deliver_obs_finished (evs : list Event) (pr pe : bool) (o : Obs) :
  o_finished (deliver_obs b t url span h evs pr pe o)
  = match span with
    | Some s =>
        if JS.truthy t
        then Nat.iter (List.length (fired evs pr pe)) (update_nth s S)
               (o_finished o)
        else o_finished o
    | None => o_finished o
    end.
Proof.
  assert (S1 : forall ev o,
    o_finished (listener_step b t url span h ev o)
    = match span with
      | Some s =>
          if JS.truthy t then update_nth s S (o_finished o)
          else o_finished o
      | None => o_finished o
      end).
  { intros ev o0. unfold listener_step, finish_step, crumb_step.
    destruct (JS.truthy b && o_installed o0), span as [s|], (JS.truthy t);
      reflexivity. }
  assert (I1 : forall (n : nat) (g : list nat -> list nat) l,
             Nat.iter n g (g l) = g (Nat.iter n g l)).
  { intros n g l. now rewrite <- Nat.iter_succ_r, Nat.iter_succ. }
  revert pr pe o. induction evs as [|ev evs IH]; intros pr pe o.
  - cbn [deliver_obs fired List.length].
    now destruct span, (JS.truthy t).
  - cbn [deliver_obs fired].
    destruct (is_response ev), pr, pe; rewrite IH, ?S1;
      destruct span as [s|]; try reflexivity;
      destruct (JS.truthy t); try reflexivity;
      cbn [app List.length]; now rewrite ?Nat.iter_succ, ?I1.
Qed.

End Traces.

Lemma update_nth_length {X : Type} (n : nat) (f : X -> X) (l : list X) :
  List.length (update_nth n f l) = List.length l.
Proof.
  revert n. induction l as [|x l IH]; intros [|n]; simpl; rewrite ?IH;
    reflexivity.
Qed.

Lemma nth_error_update_nth {X : Type} (n : nat) (f : X -> X) (l : list X) :
  nth_error (update_nth n f l) n = option_map f (nth_error l n).
Proof.
  revert n. induction l as [|x l IH]; intros [|n]; simpl; auto.
Qed.

Lemma iter_update_nth (k s : nat) (l : list nat) :
  List.length (Nat.iter k (update_nth s S) l) = List.length l
  /\ nth_error (Nat.iter k (update_nth s S) l) s
     = option_map (Nat.add k) (nth_error l s).
Proof.
  induction k as [|k [IHl IHn]].
  - split; [reflexivity|]. simpl. destruct (nth_error l s); reflexivity.
  - rewrite Nat.iter_succ, update_nth_length, nth_error_update_nth, IHn.
    split; [exact IHl|]. destruct (nth_error l s); reflexivity.
Qed.

(** ** The instrumented call *)

Lemma call_effect (b t : JS.value) (f : NodeHandler) (options : CallArgs)
  (rest : list Extra) (w : World) (h : ref) (m : Heap) :
  isSentryRequest (extractUrl (deref options w)) (hub w) = false ->
  f options rest (heap w) = (Ok h, m) ->
  exists w1,
    runs (wrappedHandler b t (native f) options rest) w h w1
    /\ spans (hub w1)
       = (spans (hub w)
          ++ match started t (hub w) with
             | Some tx =>
                 [mkSpan tx (call_description (deref options w)) "request"
                    None 0]
             | None => []
             end)%list
    /\ observe h w1
       = mkObs (breadcrumbs (hub w)) (map finished (spans (hub w1)))
           (getIntegration (hub w)) (req_method (requests m h))
           (call_listeners b t (extractUrl (deref options w)) options
              (option_map (fun _ => List.length (spans (hub w)))
                 (started t (hub w)))
              (listeners (requests m h)) true true).
Proof.
  intros Hs Hf. unfold runs, wrappedHandler, started. unfold_m. rewrite Hs.
  assert (K : forall w0 sp, heap w0 = heap w ->
    exists w1,
      (let (r, w') := native f options rest w0 in
       match r with
       | Ok a =>
           let (r0, w'0) :=
             once a "response"
               (OnResponse b t (extractUrl (deref options w)) options sp) w' in
           match r0 with
           | Ok a0 =>
               once a0 "error"
                 (OnError b t (extractUrl (deref options w)) options sp) w'0
           | Throw e => (Throw e, w'0)
           end
       | Throw e => (Throw e, w')
       end) = (Ok h, w1)
      /\ hub w1 = hub w0
      /\ req_method (requests (heap w1) h) = req_method (requests m h)
      /\ listeners (requests (heap w1) h)
         = call_listeners b t (extractUrl (deref options w)) options sp
             (listeners (requests m h)) true true).
  { intros w0 sp Hw0. unfold native. rewrite Hw0, Hf.
    unfold once. unfold_m. eexists. split; [reflexivity|].
    unfold with_request, upd. cbn [hub heap requests objects].
    rewrite !Nat.eqb_refl. cbn [req_method listeners].
    repeat split. unfold call_listeners, pending, response_listener,
      error_listener. now rewrite <- app_assoc. }
  destruct (getScope (hub w)) as [sc|].
  2:{ destruct (K w None eq_refl) as (w1 & R & Hh & Hm & Hl).
      exists w1. split; [exact R|]. unfold observe.
      rewrite Hh, Hm, Hl, app_nil_r. auto. }
  destruct (JS.truthy t).
  2:{ destruct (K w None eq_refl) as (w1 & R & Hh & Hm & Hl).
      exists w1. split; [exact R|]. unfold observe.
      rewrite Hh, Hm, Hl, app_nil_r. auto. }
  destruct (getTransaction sc) as [tx|].
  2:{ destruct (K w None eq_refl) as (w1 & R & Hh & Hm & Hl).
      exists w1. split; [exact R|]. unfold observe.
      rewrite Hh, Hm, Hl, app_nil_r. auto. }
  unfold startChild. unfold_m.
  match goal with
  | |- exists w1, (let (r, w') := native f options rest ?w0 in _) = _ /\ _ =>
      destruct (K w0 (Some (List.length (spans (hub w)))) eq_refl)
        as (w1 & R & Hh & Hm & Hl)
  end.
  exists w1. split; [exact R|]. unfold observe.
  rewrite Hh, Hm, Hl. auto.
Qed.

(** ** Spans and breadcrumbs of a call *)

(** C1, as the code has it: with tracing enabled and a transaction on the
    current scope, a call that is not to the sink starts one span (operation
    ["request"], description method, space, normalized URL, the method being
    ["GET"] for a URL string or an object without method), and no other
    span appears whatever events follow.  The span is finished once by each
    of the two one-shot listeners that gets its event: once by the first
    response and once by the first error; so exactly once as soon as an
    event arrives, when responses and errors exclude each other, and twice
    when both arrive. *)
Theorem wrappedHandler_one_span (b t : JS.value) (f : NodeHandler)
  (options : CallArgs) (rest : list Extra) (w : World) (sc : Scope)
  (tx : nat) (h : ref) (m : Heap) :
  JS.truthy t = true ->
  isSentryRequest (extractUrl (deref options w)) (hub w) = false ->
  getScope (hub w) = Some sc ->
  getTransaction sc = Some tx ->
  f options rest (heap w) = (Ok h, m) ->
  Forall foreign (listeners (requests m h)) ->
  exists w1,
    runs (wrappedHandler b t (native f) options rest) w h w1
    /\ spans (hub w1)
       = (spans (hub w)
          ++ [mkSpan tx (call_description (deref options w)) "request"
                None 0])%list
    /\ (forall s, call_description (UrlString s) = "GET " ++ s)
    /\ (forall o, method o = None ->
                  call_description (UrlObject o)
                  = "GET " ++ extractUrl (UrlObject o))
    /\ (forall o v, method o = Some (JS.Str v) -> v <> "" ->
                    call_description (UrlObject o)
                    = v ++ " " ++ extractUrl (UrlObject o))
    /\ (forall evs,
          exists w2,
            runs (deliver h evs) w1 tt w2
            /\ List.length (spans (hub w2)) = S (List.length (spans (hub w)))
            /\ nth_error (map finished (spans (hub w2)))
                 (List.length (spans (hub w)))
               = Some (List.length (first_events evs))
            /\ (one_kind evs -> evs <> [] ->
                nth_error (map finished (spans (hub w2)))
                  (List.length (spans (hub w)))
                = Some 1%nat)).
Proof.
  intros Ht Hs Hsc Htx Hf HF.
  destruct (call_effect b t f options rest w h m Hs Hf) as (w1 & R1 & S1 & O1).
  assert (St : started t (hub w) = Some tx)
    by (unfold started; now rewrite Hsc, Ht).
  rewrite St in S1, O1. cbn [option_map] in O1.
  exists w1. split; [exact R1|]. split; [exact S1|].
  split; [reflexivity|]. split.
  { intros o Hm. unfold call_description, method_of_call. now rewrite Hm. }
  split.
  { intros o v Hm Hv. unfold call_description, method_of_call.
    rewrite Hm. cbn [JS.get JS.truthy].
    apply String.eqb_neq in Hv. now rewrite Hv. }
  intros evs.
  destruct (deliver_effect b t (extractUrl (deref options w)) options
              (Some (List.length (spans (hub w)))) h evs _ true true w1 HF)
    as (w2 & ls & R2 & O2); [now rewrite O1|].
  assert (E : map finished (spans (hub w2))
              = Nat.iter (List.length (first_events evs))
                  (update_nth (List.length (spans (hub w))) S)
                  (map finished (spans (hub w1)))).
  { change (map finished (spans (hub w2))) with (o_finished (observe h w2)).
    rewrite O2. cbn [with_listeners o_finished].
    now rewrite deliver_obs_finished, Ht. }
  destruct (iter_update_nth (List.length (first_events evs))
              (List.length (spans (hub w)))
              (map finished (spans (hub w1)))) as [Il In].
  assert (N : nth_error (map finished (spans (hub w2)))
                (List.length (spans (hub w)))
              = Some (List.length (first_events evs))).
  { rewrite E, In, S1, map_app, nth_error_app2; rewrite length_map; [|lia].
    rewrite Nat.sub_diag. cbn. now rewrite Nat.add_0_r. }
  exists w2. split; [exact R2|]. split; [|split; [exact N|]].
  - rewrite <- (length_map finished), E, Il, length_map, S1, length_app.
    cbn. lia.
  - intros Hk Hne. rewrite N. destruct evs as [|ev evs']; [now elim Hne|].
    now rewrite first_events_one_kind.
Qed.

(** A traced [POST] whose response arrives: one span, finished once. *)
Lemma wrappedHandler_one_span_witness :
  exists w1 w2,
    runs (wrappedHandler (JS.Bool true) (JS.Bool true) (native demo_request)
            (ArgObject 0) [])
         (mkWorld traced_hub demo_heap) 1 w1
    /\ spans (hub w1) = [mkSpan 7 "POST http://a/x" "request" None 0]
    /\ runs (deliver 1 [EvResponse ok_response]) w1 tt w2
    /\ nth_error (map finished (spans (hub w2))) 0 = Some 1%nat.
Proof.
  destruct (wrappedHandler_one_span (JS.Bool true) (JS.Bool true)
              demo_request (ArgObject 0) [] (mkWorld traced_hub demo_heap)
              (mkScope (Some 7)) 7 1 demo_heap)
    as (w1 & R1 & S1 & _ & _ & _ & H); try reflexivity.
  { constructor. }
  destruct (H [EvResponse ok_response]) as (w2 & R2 & _ & _ & K).
  exists w1, w2. split; [exact R1|]. split; [exact S1|].
  split; [exact R2|]. apply K; [|discriminate].
  intros e1 e2 [<-|[]] [<-|[]]. reflexivity.
Defined.

(** C1 as the spec words it fails when a response and an error both arrive
    for one call: nothing in the two listeners (lines 82-86 and 92-96) keeps
    the second from finishing the span again, and [finish()] is called
    twice. *)
Lemma span_finished_by_both_listeners :
  let w := mkWorld traced_hub demo_heap in
  let call := wrappedHandler (JS.Bool true) (JS.Bool true)
                (native demo_request) (ArgObject 0) [] w in
  let after := deliver 1 [EvResponse ok_response; EvError] (snd call) in
  isSentryRequest (extractUrl (deref (ArgObject 0) w)) (hub w) = false
  /\ fst call = Ok 1
  /\ fst after = Ok tt
  /\ map finished (spans (hub (snd after))) = [2%nat].
Proof. repeat split. Qed.

(** When a response and an error both arrive, each listener runs. *)
Example both_events_finish_twice :
  let w1 := snd (wrappedHandler (JS.Bool true) (JS.Bool true)
                   (native demo_request) (ArgObject 0) []
                   (mkWorld traced_hub demo_heap)) in
  let w2 := snd (deliver 1 [EvResponse ok_response; EvError] w1) in
  map finished (spans (hub w2)) = [2%nat]
  /\ List.length (breadcrumbs (hub w2)) = 2%nat.
Proof. split; reflexivity. Qed.




(** ** Description cleanup *)

(** C9: [cleanDescription] always returns normally.  It leaves the world
    as it is unless the options are an object without [protocol] key and
    with a truthy host; then, if reading [response.agent.protocol] throws
    (no agent), the throw is caught and the world, with the span's
    description, is as it was; if the read succeeds, the options object gets
    the agent's protocol as its [protocol], and the span's description
    becomes method (["GET"] by default), space, the URL of the updated
    options; nothing else changes. *)
Theorem cleanDescription_best_effort (requestOptions : CallArgs)
  (response : ref) (span : nat) (w : World) :
  exists w',
    runs (cleanDescription requestOptions response span) w tt w'
    /\ (cleanup_applies (deref requestOptions w) = false -> w' = w)
    /\ (req_agent (requests (heap w) response) = None -> w' = w)
    /\ (forall r agent,
          requestOptions = ArgObject r ->
          cleanup_applies (deref requestOptions w) = true ->
          req_agent (requests (heap w) response) = Some agent ->
          let o := objects (heap w) r in
          let o' :=
            mkOptions (Some (agent_protocol agent)) (host o) (hostname o)
                      (port o) (path o) (method o) in
          objects (heap w') r = o'
          /\ (forall r', r' <> r ->
                         objects (heap w') r' = objects (heap w) r')
          /\ requests (heap w') = requests (heap w)
          /\ breadcrumbs (hub w') = breadcrumbs (hub w)
          /\ spans (hub w')
             = update_nth span
                 (fun s =>
                    mkSpan (span_parent s)
                      (JS.ToString (JS.or (JS.get (method o)) (JS.Str "GET"))
                         ++ " " ++ extractUrl (UrlObject o'))
                      (span_op s) (span_http_status s) (finished s))
                 (spans (hub w))).
Proof.
  unfold cleanDescription, runs. destruct requestOptions as [u|r].
  { exists w. split; [reflexivity|]. split; [reflexivity|].
    split; [reflexivity|]. intros r agent H. discriminate. }
  cbn [deref cleanup_applies]. unfold_m.
  destruct (negb (has_key (protocol (objects (heap w) r)))
            && JS.truthy (JS.get (host (objects (heap w) r)))) eqn:Hc.
  2:{ exists w. split; [reflexivity|]. split; [reflexivity|].
      split; [reflexivity|]. intros; discriminate. }
  unfold read_agent_protocol. unfold_m.
  destruct (req_agent (requests (heap w) response)) as [a|] eqn:Ha.
  2:{ exists w. split; [reflexivity|]. split; [reflexivity|].
      split; [reflexivity|]. intros; discriminate. }
  unfold set_description. unfold_m.
  eexists. split; [reflexivity|]. split; [discriminate|].
  split; [discriminate|].
  intros r0 agent Hr _ Hagent. injection Hr as <-. injection Hagent as <-.
  unfold with_spans, with_object, upd.
  cbn [hub heap objects requests spans breadcrumbs].
  rewrite Nat.eqb_refl. cbn [method host hostname port path protocol].
  repeat split.
  intros r' Hr'. apply Nat.eqb_neq in Hr'. now rewrite Hr'.
Qed.

(** The agent's protocol is backfilled and the description recomputed. *)
Lemma cleanDescription_best_effort_witness :
  exists w',
    runs (cleanDescription (ArgObject 0) 1 0) cleanup_world tt w'
    /\ protocol (objects (heap w') 0) = Some (JS.Str "https:")
    /\ map span_description (spans (hub w')) = ["GET https://a/"].
Proof.
  destruct (cleanDescription_best_effort (ArgObject 0) 1 0 cleanup_world)
    as (w' & R & _ & _ & H).
  destruct (H 0 (mkAgent (JS.Str "https:")) eq_refl eq_refl eq_refl)
    as (Ho & _ & _ & _ & Hs).
  exists w'. split; [exact R|]. split.
  - now rewrite Ho.
  - now rewrite Hs.
Defined.

(** Without an agent the read throws, the throw is swallowed, and nothing
    changes. *)
Example cleanDescription_without_agent :
  cleanDescription (ArgObject 0) 1 0
    (mkWorld (hub cleanup_world)
       (mkHeap (objects (heap cleanup_world))
          (fun _ => mkRequest (JS.Str "GET") None [])))
  = (Ok tt,
     mkWorld (hub cleanup_world)
       (mkHeap (objects (heap cleanup_world))
          (fun _ => mkRequest (JS.Str "GET") None []))).
Proof. reflexivity. Qed.

(** * Further properties of the integration *)

(** ** Installation *)

(** X1: when a flag is truthy, installation (lines 26-37) replaces both
    entry points of [http] by their wrapped versions, and those of [https]
    when [NODE_VERSION.major] is a number above 8; when it is undefined or
    a number up to 8, [https] keeps its own entry points. *)
Theorem setupOnce_enabled (this : HttpIntegration) (major : JS.value)
  (ms : Modules) :
  JS.truthy (_breadcrumbs this) || JS.truthy (_tracing this) = true ->
  httpModule (setupOnce this major ms) = wrapped_module this (httpModule ms)
  /\ (forall n, major = JS.Num n -> (8 < n)%Z ->
        httpsModule (setupOnce this major ms)
        = wrapped_module this (httpsModule ms))
  /\ (major = JS.Undefined \/ (exists n, major = JS.Num n /\ (n <= 8)%Z) ->
      httpsModule (setupOnce this major ms) = httpsModule ms).
Proof.
  intros He. unfold setupOnce.
  assert (E : negb (JS.truthy (_breadcrumbs this))
              && negb (JS.truthy (_tracing this)) = false).
  { rewrite <- negb_orb, He. reflexivity. }
  rewrite E. split; [|split].
  - now destruct (JS.truthy major && _).
  - intros n -> Hn. cbn [JS.truthy].
    assert (Hz : (n =? 0)%Z = false) by (apply Z.eqb_neq; lia).
    apply Z.ltb_lt in Hn. now rewrite Hz, Hn.
  - intros [->|(n & -> & H)]; [reflexivity|].
    assert (Hn : (8 <? n)%Z = false) by (apply Z.ltb_ge; lia).
    now rewrite Hn, andb_false_r.
Qed.

(** On Node 8 a default integration wraps [http] and leaves [https]. *)
Lemma setupOnce_enabled_witness :
  let original := mkModule (plain_request 0) (plain_request 1) in
  let ms := setupOnce (Http None) (JS.Num 8) (mkModules original original) in
  httpModule ms = wrapped_module (Http None) original
  /\ httpsModule ms = original.
Proof.
  cbv zeta.
  destruct (setupOnce_enabled (Http None) (JS.Num 8)
              (mkModules (mkModule (plain_request 0) (plain_request 1))
                         (mkModule (plain_request 0) (plain_request 1)))
              eq_refl) as (H1 & _ & H3).
  split; [exact H1|]. apply H3. right. exists 8%Z. split; [reflexivity|lia].
Defined.

(** ** URL assembly: edges *)

Section Assembly.

Lemma replace_not_empty (s : string) :
  s <> "" -> JS.replace "///" "/" s <> "".
Proof.
  destruct s as [|c s]; [intros H; now elim H|]. intros _.
  cbn [JS.replace]. destruct (prefix "///" (String c s)); discriminate.
Qed.

Lemma append_not_empty (a b : string) : b <> "" -> a ++ b <> "".
Proof.
  intros Hb. destruct a as [|c a]; [exact Hb | discriminate].
Qed.

Lemma first_of_falsy (p : option JS.value) (rest : list (option JS.value))
  (d : string) :
  JS.truthy (JS.get p) = false -> first_of (p :: rest) d = first_of rest d.
Proof. intros H. cbn [first_of]. now rewrite H. Qed.

Lemma first_of_truthy (p : option JS.value) (rest : list (option JS.value))
  (d : string) :
  JS.truthy (JS.get p) = true ->
  first_of (p :: rest) d = JS.ToString (JS.get p).
Proof. intros H. cbn [first_of]. now rewrite H. Qed.

End Assembly.

(** X2: the URL of an options object is never empty (it holds at least a
    slash), so for an object the [!url] guard of [isSentryRequest] never
    fires: the call is taken for one to the sink exactly when a client with
    a DSN is configured and the DSN's host occurs in the URL. *)
Theorem extractUrl_object_not_empty (u : RequestOptions) :
  extractUrl (UrlObject u) <> ""
  /\ forall h : Hub,
       isSentryRequest (extractUrl (UrlObject u)) h = true
       <-> exists client dsn,
             getClient h = Some client /\ getDsn client = Some dsn
             /\ substring_of (dsn_host dsn) (extractUrl (UrlObject u)).
Proof.
  assert (N : extractUrl (UrlObject u) <> "").
  { rewrite extractUrl_assembly. apply replace_not_empty.
    apply append_not_empty. discriminate. }
  split; [exact N|]. intros h. unfold isSentryRequest. cbn [JS.truthy].
  apply String.eqb_neq in N. rewrite N. cbn [negb].
  destruct (getClient h) as [c|].
  2:{ split; [discriminate | intros (c & d & H & _); discriminate]. }
  destruct (getDsn c) as [d|] eqn:Hd.
  2:{ split; [discriminate | intros (c' & d & H & H' & _)].
      injection H as <-. congruence. }
  rewrite negb_true_iff, indexOf_found_iff. split.
  - intros H. exists c, d. auto.
  - intros (c' & d' & H1 & H2 & H3). injection H1 as <-.
    rewrite Hd in H2. injection H2 as <-. exact H3.
Qed.

(** X3: an internal route (no protocol, no host or hostname, no port
    suffix) normalizes to its path when the path starts with a slash, and to
    ["/"] when there is no path: the three slashes of the assembly collapse
    (lines 132-138). *)
Theorem extractUrl_internal_route (u : RequestOptions) :
  JS.truthy (JS.get (protocol u)) = false ->
  JS.truthy (JS.get (hostname u)) = false ->
  JS.truthy (JS.get (host u)) = false ->
  negb (JS.truthy (JS.get (port u))) || is_default_port (JS.get (port u))
  = true ->
  (forall rest, path u = Some (JS.Str ("/" ++ rest)) ->
                extractUrl (UrlObject u) = "/" ++ rest)
  /\ (JS.truthy (JS.get (path u)) = false -> extractUrl (UrlObject u) = "/").
Proof.
  intros Hp Hn Hh Hport.
  assert (E : extractUrl (UrlObject u)
              = JS.replace "///" "/" ("//" ++ path_or_slash (path u))).
  { rewrite extractUrl_assembly, (port_suffix_none _ Hport).
    now rewrite !first_of_falsy by assumption. }
  rewrite E. split.
  - intros rest Hpath. unfold path_or_slash. rewrite Hpath.
    change (first_of [Some (JS.Str ("/" ++ rest))] "/") with ("/" ++ rest).
    change ("//" ++ "/" ++ rest) with (String "/" ("//" ++ rest)).
    cbn [JS.replace].
    assert (P : prefix "///" (String "/" ("//" ++ rest)) = true)
      by (apply prefix_iff; exists rest; reflexivity).
    rewrite P. reflexivity.
  - intros Hpath. unfold path_or_slash. now rewrite first_of_falsy.
Qed.

Lemma extractUrl_internal_route_witness :
  extractUrl (UrlObject (mkOptions None None None None
                           (Some (JS.Str "/health?full=1")) None))
  = "/health?full=1".
Proof.
  apply (extractUrl_internal_route
           (mkOptions None None None None (Some (JS.Str "/health?full=1"))
                      None));
    reflexivity.
Defined.

(** X4: [hostname] wins over [host] (line 133): with a truthy hostname the
    host has no influence on the URL, and without one the host stands in
    for it. *)
Theorem extractUrl_hostname_first (u : RequestOptions) :
  (JS.truthy (JS.get (hostname u)) = true ->
   forall v, extractUrl (UrlObject (with_host v u)) = extractUrl (UrlObject u))
  /\ (JS.truthy (JS.get (hostname u)) = false ->
      extractUrl (UrlObject u) = extractUrl (UrlObject (host_as_hostname u))).
Proof.
  split.
  - intros Hn v. rewrite !extractUrl_assembly.
    cbn [with_host protocol hostname host port path].
    now rewrite !(first_of_truthy (hostname u)) by assumption.
  - intros Hn. rewrite !extractUrl_assembly.
    cbn [host_as_hostname protocol hostname host port path].
    rewrite (first_of_falsy (hostname u)) by assumption.
    cbn [first_of JS.get JS.truthy]. now destruct (JS.truthy (JS.get (host u))).
Qed.

Lemma extractUrl_hostname_first_witness :
  extractUrl (UrlObject (mkOptions (Some (JS.Str "http:"))
                           (Some (JS.Str "a:8080")) (Some (JS.Str "a"))
                           (Some (JS.Num 8080)) None None))
  = "http://a:8080/".
Proof.
  set (u := mkOptions (Some (JS.Str "http:")) None (Some (JS.Str "a"))
              (Some (JS.Num 8080)) None None).
  change (extractUrl (UrlObject (with_host (Some (JS.Str "a:8080")) u))
          = extractUrl (UrlObject u)).
  apply (extractUrl_hostname_first u). reflexivity.
Defined.

(** X5: a port given as a string is compared with [===] against the
    numbers 80 and 443 and so is never dropped (line 135): any non-empty
    string port, ["80"] and ["443"] included, is appended after a colon. *)
Theorem extractUrl_string_port (u : RequestOptions) (s : string) :
  port u = Some (JS.Str s) ->
  s <> "" ->
  extractUrl (UrlObject u)
  = JS.replace "///" "/"
      (before_port u ++ (":" ++ s) ++ path_or_slash (path u)).
Proof.
  intros Hp Hs. rewrite extractUrl_assembly, Hp.
  unfold port_suffix, before_port.
  cbn [JS.get JS.truthy is_default_port JS.ToString].
  apply String.eqb_neq in Hs. rewrite Hs. cbn [negb].
  now rewrite !append_assoc.
Qed.

Lemma extractUrl_string_port_witness :
  extractUrl (UrlObject (mkOptions (Some (JS.Str "http:")) None
                           (Some (JS.Str "a")) (Some (JS.Str "80"))
                           (Some (JS.Str "/")) None))
  = "http://a:80/".
Proof.
  rewrite (extractUrl_string_port _ "80"); [reflexivity | reflexivity |].
  discriminate.
Defined.

(** ** The wrapped handler, step by step *)

Section WrappedRuns.

Variables (b t : JS.value) (orig : Handler) (options : CallArgs)
          (rest : list Extra) (w : World).

Hypothesis not_sentry :
  isSentryRequest (extractUrl (deref options w)) (hub w) = false.

Lemma wrappedHandler_unfold :
  wrappedHandler b t orig options rest w
  = (req <- orig options rest ;;
     req' <- once req "response"
               (OnResponse b t (extractUrl (deref options w)) options
                  (fst (span_start t options w))) ;;
     once req' "error"
       (OnError b t (extractUrl (deref options w)) options
          (fst (span_start t options w))))
      (snd (span_start t options w)).
Proof.
  unfold wrappedHandler, span_start, started, call_description.
  unfold_m. rewrite not_sentry.
  destruct (getScope (hub w)) as [sc|]; [|reflexivity].
  destruct (JS.truthy t); [|reflexivity].
  destruct (getTransaction sc) as [tx|]; reflexivity.
Qed.

Lemma wrapped_returns (h : ref) (wo : World) :
  runs (orig options rest) (snd (span_start t options w)) h wo ->
  runs (wrappedHandler b t orig options rest) w h
    (add_listener h
       (error_listener b t (extractUrl (deref options w)) options
          (fst (span_start t options w)))
       (add_listener h
          (response_listener b t (extractUrl (deref options w)) options
             (fst (span_start t options w)))
          wo)).
Proof.
  intros R. unfold runs. rewrite wrappedHandler_unfold.
  unfold runs in R. unfold bind. rewrite R. reflexivity.
Qed.

Lemma wrapped_throws (e : Exn) (wo : World) :
  orig options rest (snd (span_start t options w)) = (Throw e, wo) ->
  wrappedHandler b t orig options rest w = (Throw e, wo).
Proof.
  intros R. rewrite wrappedHandler_unfold. unfold bind. now rewrite R.
Qed.

End WrappedRuns.

Lemma span_start_heap (t : JS.value) (options : CallArgs) (w : World) :
  heap (snd (span_start t options w)) = heap w
  /\ breadcrumbs (hub (snd (span_start t options w))) = breadcrumbs (hub w)
  /\ getIntegration (hub (snd (span_start t options w)))
     = getIntegration (hub w)
  /\ getClient (hub (snd (span_start t options w))) = getClient (hub w)
  /\ getScope (hub (snd (span_start t options w))) = getScope (hub w)
  /\ spans (hub (snd (span_start t options w)))
     = (spans (hub w) ++ new_spans t options w)%list.
Proof.
  unfold span_start, new_spans. destruct (started t (hub w));
    cbn [snd with_spans hub heap breadcrumbs getIntegration getClient
           getScope spans]; rewrite ?app_nil_r; repeat split.
Qed.

(** X6: when the original handler throws, the wrapped handler throws the
    same, after the original's own effects on the heap and with no listener
    attached; a span started for the call (lines 63-74) stays in the sink,
    never finished, and the breadcrumb log is untouched. *)
Theorem wrappedHandler_original_throws (b t : JS.value) (f : NodeHandler)
  (options : CallArgs) (rest : list Extra) (w : World) (e : Exn) (m : Heap) :
  isSentryRequest (extractUrl (deref options w)) (hub w) = false ->
  f options rest (heap w) = (Throw e, m) ->
  exists w',
    wrappedHandler b t (native f) options rest w = (Throw e, w')
    /\ heap w' = m
    /\ breadcrumbs (hub w') = breadcrumbs (hub w)
    /\ spans (hub w') = (spans (hub w) ++ new_spans t options w)%list
    /\ (forall s, In s (new_spans t options w) -> finished s = 0%nat).
Proof.
  intros Hs Hf.
  destruct (span_start_heap t options w) as (Hh & Hb & _ & _ & _ & Hsp).
  exists (mkWorld (hub (snd (span_start t options w))) m).
  split; [|repeat split; auto].
  - apply wrapped_throws; [exact Hs|]. unfold native. now rewrite Hh, Hf.
  - intros s. unfold new_spans. destruct (started t (hub w)); [|intros []].
    intros [<-|[]]. reflexivity.
Qed.

(** A traced call with an invalid target: the throw comes through and the
    span is left behind unfinished. *)
Lemma wrappedHandler_original_throws_witness :
  exists w',
    wrappedHandler (JS.Bool true) (JS.Bool true)
      (native (fun _ _ m => (Throw TypeError, m))) (ArgString "not a url") []
      (mkWorld traced_hub demo_heap)
    = (Throw TypeError, w')
    /\ spans (hub w') = [mkSpan 7 "GET not a url" "request" None 0].
Proof.
  destruct (wrappedHandler_original_throws (JS.Bool true) (JS.Bool true)
              (fun _ _ m => (Throw TypeError, m)) (ArgString "not a url") []
              (mkWorld traced_hub demo_heap) TypeError demo_heap
              eq_refl eq_refl) as (w' & R & _ & _ & Hs & _).
  exists w'. split; [exact R | exact Hs].
Defined.

(** ** Delivery, for any observation of the world *)

Section Shape.

Variables (b t : JS.value) (url : string) (options : CallArgs)
          (span : option nat) (h : ref).

Lemma listeners_set (ls : list Listener) (w : World) :
  listeners (requests (heap (set_listeners h ls w)) h) = ls.
Proof.
  unfold set_listeners, with_request, upd. cbn [heap requests].
  now rewrite Nat.eqb_refl.
Qed.

Lemma runs_functional {A : Type} (m : M A) (w : World) (a a' : A)
  (w1 w2 : World) :
  runs m w a w1 -> runs m w a' w2 -> w1 = w2.
Proof. unfold runs. intros H1 H2. congruence. Qed.

(** The listener an event reaches runs to its end and leaves the
    listeners of the handle alone. *)
Lemma listener_runs (ev : Event) (w : World) :
  exists w',
    runs (run_callback (callback (listener_of b t url options span ev)) h ev)
      w tt w'
    /\ listeners (requests (heap w') h) = listeners (requests (heap w) h).
Proof.
  assert (K : forall o, o_listeners (listener_step b t url span h ev o)
                        = o_listeners o).
  { intros o. unfold listener_step, finish_step, crumb_step.
    destruct (JS.truthy b && o_installed o), span, (JS.truthy t);
      reflexivity. }
  unfold listener_of. destruct ev as [res|]; cbn [is_response].
  - destruct (response_listener_effect b t url options span h res w)
      as (w' & R & O).
    exists w'. split; [exact R|].
    change (o_listeners (observe h w') = o_listeners (observe h w)).
    now rewrite O, K.
  - destruct (error_listener_effect b t url options span h w)
      as (w' & R & O).
    exists w'. split; [exact R|].
    change (o_listeners (observe h w') = o_listeners (observe h w)).
    now rewrite O, K.
Qed.

(** One delivery, by cases: the listener of the event is gone and only the
    listener list changes, or it is there and the delivery is its run. *)
Lemma emit_shape (ev : Event) (F : list Listener) (pr pe : bool) (w : World) :
  Forall foreign F ->
  listeners (requests (heap w) h)
  = call_listeners b t url options span F pr pe ->
  exists F',
    Forall foreign F'
    /\ ((if is_response ev then pr else pe) = false ->
        runs (emit h ev) w tt
          (set_listeners h
             (call_listeners b t url options span F'
                (pr && negb (is_response ev)) (pe && is_response ev)) w))
    /\ ((if is_response ev then pr else pe) = true ->
        forall w',
          runs (run_callback
                  (callback (listener_of b t url options span ev)) h ev)
            (set_listeners h
               (call_listeners b t url options span F'
                  (pr && negb (is_response ev)) (pe && is_response ev)) w)
            tt w' ->
          runs (emit h ev) w tt w').
Proof.
  intros HF HL.
  set (Lr := response_listener b t url options span) in *.
  set (Le := error_listener b t url options span) in *.
  set (keep := fun l : Listener => negb (hears ev l && one_shot l)).
  exists (filter keep F). split; [now apply filter_foreign|].
  assert (R0 : forall w0 w2,
             w0 = set_listeners h
                    (filter keep (listeners (requests (heap w) h))) w ->
             runs (run_listeners
                     (filter (hears ev) (listeners (requests (heap w) h)))
                     h ev) w0 tt w2 ->
             runs (emit h ev) w tt w2).
  { intros w0 w2 -> R. unfold emit. eapply runs_bind; [apply runs_reads|].
    eapply runs_bind; [apply runs_modify|]. exact R. }
  rewrite HL in R0. unfold call_listeners in R0 |- *.
  fold Lr Le in R0 |- *. rewrite !filter_app in R0.
  assert (RF : forall w0, runs (run_listeners (filter (hears ev) F) h ev)
                            w0 tt w0)
    by (intros w0; apply run_foreign, filter_foreign, HF).
  unfold listener_of. fold Lr Le.
  destruct ev as [res|]; cbn [is_response negb];
    rewrite andb_false_r, andb_true_r.
  - assert (Kr : filter keep (pending pr Lr) = pending false Lr)
      by now destruct pr.
    assert (Ke : filter keep (pending pe Le) = pending pe Le)
      by now destruct pe.
    assert (He : filter (hears (EvResponse res)) (pending pe Le) = [])
      by now destruct pe.
    rewrite Kr, Ke, He, app_nil_r in R0. split.
    + intros ->. eapply R0; [reflexivity|].
      cbn [pending filter]. rewrite app_nil_r. apply RF.
    + intros -> w' R. eapply R0; [reflexivity|].
      eapply run_listeners_app; [apply RF|].
      change (filter (hears (EvResponse res)) (pending true Lr)) with [Lr].
      cbn [run_listeners]. eapply runs_bind; [exact R|reflexivity].
  - assert (Kr : filter keep (pending pr Lr) = pending pr Lr)
      by now destruct pr.
    assert (Ke : filter keep (pending pe Le) = pending false Le)
      by now destruct pe.
    assert (Hr : filter (hears EvError) (pending pr Lr) = [])
      by now destruct pr.
    rewrite Kr, Ke, Hr in R0. cbn [app] in R0. split.
    + intros ->. eapply R0; [reflexivity|].
      cbn [pending filter]. rewrite app_nil_r. apply RF.
    + intros -> w' R. eapply R0; [reflexivity|].
      eapply run_listeners_app; [apply RF|].
      change (filter (hears EvError) (pending true Le)) with [Le].
      cbn [run_listeners]. eapply runs_bind; [exact R|reflexivity].
Qed.

Section Observation.

(** An observation that does not see the listeners of [h], and on which the
    run of a listener acts as [step]. *)
Variables (X : Type) (obs : World -> X) (step : Event -> X -> X).

Hypothesis obs_listeners :
  forall ls w, obs (set_listeners h ls w) = obs w.

Hypothesis obs_step :
  forall ev w w',
    runs (run_callback (callback (listener_of b t url options span ev)) h ev)
      w tt w' ->
    obs w' = step ev (obs w).

Lemma deliver_observed (evs : list Event) (F : list Listener) (pr pe : bool)
  (w : World) :
  Forall foreign F ->
  listeners (requests (heap w) h)
  = call_listeners b t url options span F pr pe ->
  exists w',
    runs (deliver h evs) w tt w'
    /\ obs w' = fold_left (fun x ev => step ev x) (fired evs pr pe) (obs w).
Proof.
  revert F pr pe w. induction evs as [|ev evs IH]; intros F pr pe w HF HL.
  - exists w. split; reflexivity.
  - destruct (emit_shape ev F pr pe w HF HL) as (F' & HF' & Hoff & Hon).
    set (w0 := set_listeners h
                 (call_listeners b t url options span F'
                    (pr && negb (is_response ev)) (pe && is_response ev)) w)
      in *.
    assert (L0 : listeners (requests (heap w0) h)
                 = call_listeners b t url options span F'
                     (pr && negb (is_response ev)) (pe && is_response ev))
      by apply listeners_set.
    assert (O0 : obs w0 = obs w) by apply obs_listeners.
    assert (Fd : fired (ev :: evs) pr pe
                 = ((if (if is_response ev then pr else pe) then [ev] else [])
                    ++ fired evs (pr && negb (is_response ev))
                         (pe && is_response ev))%list).
    { cbn [fired]. destruct (is_response ev); cbn [negb];
        now rewrite ?andb_true_r, ?andb_false_r. }
    rewrite Fd. destruct (if is_response ev then pr else pe) eqn:Hfire.
    + destruct (listener_runs ev w0) as (w1 & R1 & L1).
      destruct (IH F' (pr && negb (is_response ev)) (pe && is_response ev)
                  w1 HF') as (w2 & R2 & O2); [now rewrite L1|].
      exists w2. split.
      * cbn [deliver]. eapply runs_bind; [apply (Hon eq_refl _ R1)|exact R2].
      * rewrite O2. cbn [app fold_left].
        now rewrite (obs_step _ _ _ R1), O0.
    + destruct (IH F' (pr && negb (is_response ev)) (pe && is_response ev)
                  w0 HF' L0) as (w2 & R2 & O2).
      exists w2. split.
      * cbn [deliver]. eapply runs_bind; [apply (Hoff eq_refl)|exact R2].
      * rewrite O2, O0. reflexivity.
Qed.

End Observation.

End Shape.

(** ** What the operations leave alone *)

Lemma runs_bind_inv {A B : Type} (m : M A) (k : A -> M B) (w w2 : World)
  (x : B) :
  runs (bind m k) w x w2 -> exists a w1, runs m w a w1 /\ runs (k a) w1 x w2.
Proof.
  unfold runs, bind. destruct (m w) as [[a|e] w1]; [eauto | discriminate].
Qed.

Lemma runs_ret_inv {A : Type} (a x : A) (w w' : World) :
  runs (ret a) w x w' -> x = a /\ w' = w.
Proof. unfold runs, ret. intros [= -> ->]. auto. Qed.

Lemma runs_modify_inv (f : World -> World) (w w' : World) :
  runs (modify f) w tt w' -> w' = f w.
Proof. unfold runs, modify. now intros [= ->]. Qed.

Lemma addRequestBreadcrumb_frame (event url : string) (req : ref)
  (res : option Response) (w w' : World) :
  runs (addRequestBreadcrumb event url req res) w tt w' ->
  spans (hub w') = spans (hub w) /\ heap w' = heap w.
Proof.
  unfold addRequestBreadcrumb, runs. unfold_m.
  destruct (getIntegration (hub w)); cbn [negb]; intros [= <-]; auto.
Qed.

Lemma cleanDescription_frame (requestOptions : CallArgs) (response : ref)
  (s : nat) (w w' : World) :
  runs (cleanDescription requestOptions response s) w tt w' ->
  breadcrumbs (hub w') = breadcrumbs (hub w)
  /\ requests (heap w') = requests (heap w)
  /\ exists f,
       (forall sp, span_view (f sp) = span_view sp)
       /\ spans (hub w') = update_nth s f (spans (hub w)).
Proof.
  assert (Id : forall w0 : World,
    breadcrumbs (hub w0) = breadcrumbs (hub w0)
    /\ requests (heap w0) = requests (heap w0)
    /\ exists f,
         (forall sp, span_view (f sp) = span_view sp)
         /\ spans (hub w0) = update_nth s f (spans (hub w0))).
  { intros w0. split; [reflexivity|]. split; [reflexivity|].
    exists (fun sp => sp). split; [reflexivity|].
    now rewrite update_nth_id. }
  unfold cleanDescription, runs. destruct requestOptions as [u|r].
  { intros [= <-]. apply Id. }
  unfold_m.
  destruct (negb (has_key (protocol (objects (heap w) r)))
            && JS.truthy (JS.get (host (objects (heap w) r)))).
  2:{ intros [= <-]. apply Id. }
  unfold read_agent_protocol. unfold_m.
  destruct (req_agent (requests (heap w) response)) as [a|].
  2:{ intros [= <-]. apply Id. }
  unfold set_description. unfold_m. intros [= <-].
  split; [reflexivity|]. split; [reflexivity|].
  eexists. split; [|reflexivity]. reflexivity.
Qed.

Lemma fold_left_same {X Y : Type} (l : list Y) (x : X) :
  fold_left (fun x _ => x) l x = x.
Proof. induction l as [|y l IH]; [reflexivity | exact IH]. Qed.

(** ** The call through an entry point of Node *)

Lemma native_call (b t : JS.value) (f : NodeHandler) (options : CallArgs)
  (rest : list Extra) (w : World) (h : ref) (m : Heap) :
  isSentryRequest (extractUrl (deref options w)) (hub w) = false ->
  f options rest (heap w) = (Ok h, m) ->
  exists w1,
    runs (wrappedHandler b t (native f) options rest) w h w1
    /\ hub w1 = hub (snd (span_start t options w))
    /\ objects (heap w1) = objects m
    /\ req_method (requests (heap w1) h) = req_method (requests m h)
    /\ listeners (requests (heap w1) h)
       = call_listeners b t (extractUrl (deref options w)) options
           (fst (span_start t options w)) (listeners (requests m h))
           true true.
Proof.
  intros Hs Hf.
  destruct (span_start_heap t options w) as (Hh & _).
  eexists. split.
  - apply wrapped_returns; [exact Hs|].
    unfold runs, native. rewrite Hh, Hf. reflexivity.
  - unfold add_listener, with_request, upd.
    cbn [hub heap objects requests]. rewrite !Nat.eqb_refl.
    cbn [listeners req_method]. repeat split.
    unfold call_listeners, pending. now rewrite <- app_assoc.
Qed.

(** ** The span of a call through the events *)

Section SpanView.

Variables (b t : JS.value) (url : string) (options : CallArgs) (s : nat)
          (h : ref).

Hypothesis tracing : JS.truthy t = true.

Lemma traced_tail_view (code : JS.value) (w w' : World) :
  runs (setHttpStatus s code ;; cleanDescription options h s ;; finish s)
    w tt w' ->
  view_of s w'
  = match view_of s w with
    | Some (p, o, _, f) => Some (p, o, Some code, S f)
    | None => None
    end.
Proof.
  intros R.
  apply runs_bind_inv in R as ([] & w1 & R1 & R).
  apply runs_bind_inv in R as ([] & w2 & R2 & R3).
  apply runs_modify_inv in R1, R3.
  apply cleanDescription_frame in R2 as (_ & _ & g & Hg & S2).
  unfold view_of. rewrite R3. unfold with_spans at 1. cbn [hub spans].
  rewrite nth_error_update_nth, S2, nth_error_update_nth, R1.
  unfold with_spans at 1. cbn [hub spans]. rewrite nth_error_update_nth.
  destruct (nth_error (spans (hub w)) s) as [sp|]; [|reflexivity].
  cbn [option_map]. specialize (Hg (mkSpan (span_parent sp)
    (span_description sp) (span_op sp) (Some code) (finished sp))).
  unfold span_view in *. cbn [span_parent span_op span_http_status finished]
    in *. injection Hg as -> -> -> ->. reflexivity.
Qed.

Lemma listener_view (ev : Event) (w w' : World) :
  runs (run_callback
          (callback (listener_of b t url options (Some s) ev)) h ev) w tt w' ->
  view_of s w' = view_step ev (view_of s w).
Proof.
  assert (Hd : forall w0 w1 (m : M unit),
             runs m w0 tt w1 ->
             (m = ret tt \/ exists e r, m = addRequestBreadcrumb e url h r) ->
             view_of s w1 = view_of s w0).
  { intros w0 w1 m R [->|(e & r & ->)].
    - apply runs_ret_inv in R as [_ ->]. reflexivity.
    - apply addRequestBreadcrumb_frame in R as [Hs _]. unfold view_of.
      now rewrite Hs. }
  unfold listener_of. destruct ev as [res|];
    cbn [is_response callback response_listener error_listener run_callback
           payload]; rewrite tracing; intros R;
    apply runs_bind_inv in R as ([] & w1 & R1 & R2);
    apply traced_tail_view in R2; rewrite R2;
    (rewrite (Hd w w1 _ R1);
     [unfold view_step, status_of;
      destruct (view_of s w) as [[[[p o] c] f]|]; reflexivity
     | destruct (JS.truthy b); [right; eauto | left; reflexivity]]).
Qed.

End SpanView.

(** X7: the span of a traced call keeps its transaction and its operation
    ["request"], and takes its status from the listeners that run: the
    status code of the response (line 83) or 500 on an error (line 93).
    With responses and errors excluding each other, after the first event
    the span shows that status and is finished once. *)
Theorem wrappedHandler_span_status (b t : JS.value) (f : NodeHandler)
  (options : CallArgs) (rest : list Extra) (w : World) (sc : Scope)
  (tx : nat) (h : ref) (m : Heap) :
  JS.truthy t = true ->
  isSentryRequest (extractUrl (deref options w)) (hub w) = false ->
  getScope (hub w) = Some sc ->
  getTransaction sc = Some tx ->
  f options rest (heap w) = (Ok h, m) ->
  Forall foreign (listeners (requests m h)) ->
  exists w1,
    runs (wrappedHandler b t (native f) options rest) w h w1
    /\ forall evs,
         exists w2,
           runs (deliver h evs) w1 tt w2
           /\ option_map span_view
                (nth_error (spans (hub w2)) (List.length (spans (hub w))))
              = fold_left (fun v ev => view_step ev v) (first_events evs)
                  (Some (tx, "request", None, 0%nat))
           /\ (forall ev evs', evs = ev :: evs' -> one_kind evs ->
                 option_map span_view
                   (nth_error (spans (hub w2)) (List.length (spans (hub w))))
                 = Some (tx, "request", Some (status_of ev), 1%nat)).
Proof.
  intros Ht Hs Hsc Htx Hf HF.
  destruct (native_call b t f options rest w h m Hs Hf)
    as (w1 & R1 & Hh & _ & _ & HL).
  assert (St : started t (hub w) = Some tx)
    by (unfold started; now rewrite Hsc, Ht).
  destruct (span_start_heap t options w) as (_ & _ & _ & _ & _ & Hsp).
  unfold span_start in HL. unfold new_spans in Hsp. rewrite St in HL, Hsp.
  cbn [fst] in HL.
  exists w1. split; [exact R1|]. intros evs.
  destruct (deliver_observed b t (extractUrl (deref options w)) options
              (Some (List.length (spans (hub w)))) h _
              (view_of (List.length (spans (hub w))))
              (fun ev v => view_step ev v)
              (fun ls w0 => eq_refl)
              (listener_view b t _ options _ h Ht)
              evs _ true true w1 HF HL) as (w2 & R2 & O2).
  assert (V1 : view_of (List.length (spans (hub w))) w1
               = Some (tx, "request", None, 0%nat)).
  { unfold view_of. rewrite Hh, Hsp, nth_error_app2, Nat.sub_diag by lia.
    reflexivity. }
  rewrite V1 in O2. exists w2. split; [exact R2|]. split; [exact O2|].
  intros ev evs' -> Hk. unfold view_of in O2. rewrite O2.
  change (fired (ev :: evs') true true) with (first_events (ev :: evs')).
  now rewrite first_events_one_kind.
Qed.

(** A traced call answered with status 200. *)
Lemma wrappedHandler_span_status_witness :
  exists w1 w2,
    runs (wrappedHandler (JS.Bool true) (JS.Bool true) (native demo_request)
            (ArgObject 0) [])
         (mkWorld traced_hub demo_heap) 1 w1
    /\ runs (deliver 1 [EvResponse ok_response]) w1 tt w2
    /\ option_map span_view (nth_error (spans (hub w2)) 0)
       = Some (7, "request", Some (JS.Num 200), 1%nat).
Proof.
  destruct (wrappedHandler_span_status (JS.Bool true) (JS.Bool true)
              demo_request (ArgObject 0) [] (mkWorld traced_hub demo_heap)
              (mkScope (Some 7)) 7 1 demo_heap)
    as (w1 & R1 & H); try reflexivity.
  { constructor. }
  destruct (H [EvResponse ok_response]) as (w2 & R2 & _ & K).
  exists w1, w2. split; [exact R1|]. split; [exact R2|].
  specialize (K (EvResponse ok_response) [] eq_refl).
  assert (Hk : one_kind [EvResponse ok_response])
    by (intros e1 e2 [<-|[]] [<-|[]]; reflexivity).
  exact (K Hk).
Defined.

(** ** Calls without a span, calls without breadcrumbs *)

Lemma listener_without_span (b t : JS.value) (url : string)
  (options : CallArgs) (h : ref) (ev : Event) (w w' : World) :
  runs (run_callback (callback (listener_of b t url options None ev)) h ev)
    w tt w' ->
  (spans (hub w'), objects (heap w')) = (spans (hub w), objects (heap w)).
Proof.
  assert (Hd : forall (m : M unit) w1,
             runs m w tt w1 ->
             (m = ret tt \/ exists e r, m = addRequestBreadcrumb e url h r) ->
             spans (hub w1) = spans (hub w) /\ heap w1 = heap w).
  { intros m w1 R [->|(e & r & ->)].
    - apply runs_ret_inv in R as [_ ->]. auto.
    - now apply addRequestBreadcrumb_frame in R. }
  unfold listener_of. destruct ev as [res|];
    cbn [is_response callback response_listener error_listener run_callback
           payload]; intros R;
    apply runs_bind_inv in R as ([] & w1 & R1 & R2);
    (assert (E : w' = w1)
       by (destruct (JS.truthy t); now apply runs_ret_inv in R2 as [_ ->]));
    subst w';
    (destruct (Hd _ w1 R1) as [Hs Hh];
     [destruct (JS.truthy b); [right; eauto | left; reflexivity]
     | now rewrite Hs, Hh]).
Qed.

(** X8: a call for which no span is started (tracing off, no scope, or no
    transaction on the scope) adds nothing to the sink's spans, and the
    events that follow leave every span and every option object as they
    are: without a span the listeners never run [cleanDescription], so the
    caller's options are not written to. *)
Theorem wrappedHandler_without_span (b t : JS.value) (f : NodeHandler)
  (options : CallArgs) (rest : list Extra) (w : World) (h : ref) (m : Heap) :
  started t (hub w) = None ->
  isSentryRequest (extractUrl (deref options w)) (hub w) = false ->
  f options rest (heap w) = (Ok h, m) ->
  Forall foreign (listeners (requests m h)) ->
  exists w1,
    runs (wrappedHandler b t (native f) options rest) w h w1
    /\ spans (hub w1) = spans (hub w)
    /\ objects (heap w1) = objects m
    /\ forall evs,
         exists w2,
           runs (deliver h evs) w1 tt w2
           /\ spans (hub w2) = spans (hub w)
           /\ objects (heap w2) = objects m.
Proof.
  intros St Hs Hf HF.
  destruct (native_call b t f options rest w h m Hs Hf)
    as (w1 & R1 & Hh & Ho & _ & HL).
  unfold span_start in Hh, HL. rewrite St in Hh, HL. cbn [fst snd] in Hh, HL.
  exists w1. split; [exact R1|]. split; [now rewrite Hh|].
  split; [exact Ho|]. intros evs.
  destruct (deliver_observed b t (extractUrl (deref options w)) options
              None h _
              (fun w0 => (spans (hub w0), objects (heap w0)))
              (fun _ x => x)
              (fun ls w0 => eq_refl)
              (listener_without_span b t _ options h)
              evs _ true true w1 HF HL) as (w2 & R2 & O2).
  rewrite fold_left_same in O2. injection O2 as O2 O3.
  exists w2. split; [exact R2|]. now rewrite O2, O3, Hh, Ho.
Qed.

(** Breadcrumbs only: the options of the call keep lacking a protocol. *)
Lemma wrappedHandler_without_span_witness :
  exists w1 w2,
    runs (wrappedHandler (JS.Bool true) (JS.Bool false)
            (native (fun _ _ m => (Ok 1, m))) (ArgObject 0) [])
         cleanup_world 1 w1
    /\ runs (deliver 1 [EvResponse ok_response]) w1 tt w2
    /\ protocol (objects (heap w2) 0) = None
    /\ spans (hub w2) = spans (hub cleanup_world).
Proof.
  destruct (wrappedHandler_without_span (JS.Bool true) (JS.Bool false)
              (fun _ _ m => (Ok 1, m)) (ArgObject 0) [] cleanup_world 1
              (heap cleanup_world))
    as (w1 & R1 & _ & _ & H); try reflexivity.
  { constructor. }
  destruct (H [EvResponse ok_response]) as (w2 & R2 & Hs & Ho).
  exists w1, w2. split; [exact R1|]. split; [exact R2|].
  split; [now rewrite Ho | exact Hs].
Defined.

(** X9: with breadcrumbs disabled the breadcrumb log is never written:
    neither by the call nor by any event that follows, whatever the
    tracing flag (lines 79 and 89). *)
Theorem wrappedHandler_without_breadcrumbs (b t : JS.value) (f : NodeHandler)
  (options : CallArgs) (rest : list Extra) (w : World) (h : ref) (m : Heap) :
  JS.truthy b = false ->
  isSentryRequest (extractUrl (deref options w)) (hub w) = false ->
  f options rest (heap w) = (Ok h, m) ->
  Forall foreign (listeners (requests m h)) ->
  exists w1,
    runs (wrappedHandler b t (native f) options rest) w h w1
    /\ breadcrumbs (hub w1) = breadcrumbs (hub w)
    /\ forall evs,
         exists w2,
           runs (deliver h evs) w1 tt w2
           /\ breadcrumbs (hub w2) = breadcrumbs (hub w).
Proof.
  intros Hb Hs Hf HF.
  destruct (call_effect b t f options rest w h m Hs Hf) as (w1 & R1 & S1 & O1).
  assert (B1 : breadcrumbs (hub w1) = breadcrumbs (hub w)).
  { change (breadcrumbs (hub w1)) with (o_crumbs (observe h w1)).
    now rewrite O1. }
  exists w1. split; [exact R1|]. split; [exact B1|]. intros evs.
  destruct (deliver_effect b t (extractUrl (deref options w)) options
              (option_map (fun _ => List.length (spans (hub w)))
                 (started t (hub w)))
              h evs _ true true w1 HF)
    as (w2 & ls & R2 & O2); [now rewrite O1|].
  exists w2. split; [exact R2|].
  change (breadcrumbs (hub w2)) with (o_crumbs (observe h w2)).
  rewrite O2. cbn [with_listeners o_crumbs].
  rewrite deliver_obs_crumbs, Hb. cbn [andb]. rewrite app_nil_r.
  exact B1.
Qed.

(** Tracing only: a response finishes the span and records nothing. *)
Lemma wrappedHandler_without_breadcrumbs_witness :
  exists w1 w2,
    runs (wrappedHandler (JS.Bool false) (JS.Bool true) (native demo_request)
            (ArgObject 0) [])
         (mkWorld traced_hub demo_heap) 1 w1
    /\ runs (deliver 1 [EvResponse ok_response; EvError]) w1 tt w2
    /\ breadcrumbs (hub w2) = [].
Proof.
  destruct (wrappedHandler_without_breadcrumbs (JS.Bool false) (JS.Bool true)
              demo_request (ArgObject 0) [] (mkWorld traced_hub demo_heap)
              1 demo_heap)
    as (w1 & R1 & _ & H); try reflexivity.
  { constructor. }
  destruct (H [EvResponse ok_response; EvError]) as (w2 & R2 & Hb).
  exists w1, w2. split; [exact R1|]. split; [exact R2 | exact Hb].
Defined.

(** ** Description cleanup, repeated *)

Lemma cleanDescription_skips (r : ref) (response : ref) (span : nat)
  (w : World) :
  cleanup_applies (deref (ArgObject r) w) = false ->
  runs (cleanDescription (ArgObject r) response span) w tt w.
Proof.
  cbn [deref cleanup_applies]. intros Hc.
  unfold cleanDescription, runs. unfold_m. now rewrite Hc.
Qed.

(** X10: description cleanup is idempotent, and a successful backfill is
    final: once [cleanDescription] has run on an options object that it
    applies to, with an agent to read from, the object has a [protocol] key
    and every later run on that object, for whatever response and span,
    changes nothing (line 153). *)
Theorem cleanDescription_idempotent (requestOptions : CallArgs)
  (response : ref) (span : nat) (w : World) :
  exists w1,
    runs (cleanDescription requestOptions response span) w tt w1
    /\ runs (cleanDescription requestOptions response span) w1 tt w1
    /\ (forall r agent,
          requestOptions = ArgObject r ->
          cleanup_applies (deref requestOptions w) = true ->
          req_agent (requests (heap w) response) = Some agent ->
          has_key (protocol (objects (heap w1) r)) = true
          /\ forall response' span',
               runs (cleanDescription requestOptions response' span')
                 w1 tt w1).
Proof.
  destruct requestOptions as [u|r].
  { exists w. split; [reflexivity|]. split; [reflexivity|].
    intros r agent H. discriminate. }
  destruct (cleanup_applies (deref (ArgObject r) w)) eqn:Hc.
  2:{ exists w. pose proof (cleanDescription_skips r response span w Hc) as R.
      split; [exact R|]. split; [exact R|]. intros; discriminate. }
  destruct (req_agent (requests (heap w) response)) as [a|] eqn:Ha.
  2:{ assert (R : runs (cleanDescription (ArgObject r) response span) w tt w).
      { unfold cleanDescription, runs, read_agent_protocol. unfold_m.
        cbn [deref cleanup_applies] in Hc. now rewrite Hc, Ha. }
      exists w. split; [exact R|]. split; [exact R|]. intros; discriminate. }
  assert (R : exists w1,
             runs (cleanDescription (ArgObject r) response span) w tt w1
             /\ has_key (protocol (objects (heap w1) r)) = true).
  { unfold cleanDescription, runs, read_agent_protocol, set_description.
    unfold_m. cbn [deref cleanup_applies] in Hc. rewrite Hc, Ha.
    eexists. split; [reflexivity|].
    unfold with_spans, with_object, upd. cbn [hub heap objects].
    now rewrite Nat.eqb_refl. }
  destruct R as (w1 & R & P).
  assert (Sk : forall response' span',
             runs (cleanDescription (ArgObject r) response' span') w1 tt w1).
  { intros response' span'. apply cleanDescription_skips.
    cbn [deref cleanup_applies]. now rewrite P. }
  exists w1. split; [exact R|]. split; [apply Sk|].
  intros r0 agent [= <-] _ _. split; [exact P | exact Sk].
Qed.

(** After the agent's protocol is backfilled a second run is idle. *)
Lemma cleanDescription_idempotent_witness :
  exists w1,
    runs (cleanDescription (ArgObject 0) 1 0) cleanup_world tt w1
    /\ runs (cleanDescription (ArgObject 0) 2 5) w1 tt w1.
Proof.
  destruct (cleanDescription_idempotent (ArgObject 0) 1 0 cleanup_world)
    as (w1 & R & _ & H).
  destruct (H 0 (mkAgent (JS.Str "https:")) eq_refl eq_refl eq_refl)
    as [_ K].
  exists w1. split; [exact R | apply K].
Defined.

(** ** Wrapping twice *)

Section Twice.

Variables (b t : JS.value) (url : string) (options : CallArgs) (h : ref).

Lemma listener_effect (span : option nat) (ev : Event) (w : World) :
  exists w',
    runs (run_callback (callback (listener_of b t url options span ev)) h ev)
      w tt w'
    /\ observe h w' = listener_step b t url span h ev (observe h w).
Proof.
  unfold listener_of. destruct ev as [res|]; cbn [is_response].
  - apply response_listener_effect.
  - apply error_listener_effect.
Qed.

(** Delivery to a handle that carries the listeners of two calls. *)
Lemma emit_twice (inner outer : option nat) (ev : Event) (F : list Listener)
  (w : World) :
  Forall foreign F ->
  listeners (requests (heap w) h)
  = (call_listeners b t url options inner F true true
     ++ [response_listener b t url options outer;
         error_listener b t url options outer])%list ->
  exists w' ls,
    runs (emit h ev) w tt w'
    /\ observe h w'
       = with_listeners ls
           (listener_step b t url outer h ev
              (listener_step b t url inner h ev (observe h w))).
Proof.
  intros HF HL.
  set (keep := fun l : Listener => negb (hears ev l && one_shot l)).
  set (w0 := set_listeners h (filter keep (listeners (requests (heap w) h)))
               w).
  assert (O0 : observe h w0
               = with_listeners
                   (filter keep (listeners (requests (heap w) h)))
                   (observe h w))
    by apply observe_with_listeners.
  assert (E : filter (hears ev) (listeners (requests (heap w) h))
              = (filter (hears ev) F
                 ++ [listener_of b t url options inner ev]
                 ++ [listener_of b t url options outer ev])%list).
  { rewrite HL. unfold call_listeners. rewrite !filter_app.
    rewrite <- !app_assoc. f_equal. now destruct ev. }
  destruct (listener_effect inner ev w0) as (w1 & R1 & O1).
  destruct (listener_effect outer ev w1) as (w2 & R2 & O2).
  exists w2, (filter keep (listeners (requests (heap w) h))). split.
  - unfold emit. eapply runs_bind; [apply runs_reads|].
    eapply runs_bind; [apply runs_modify|]. fold keep. fold w0.
    rewrite E. eapply run_listeners_app.
    { apply run_foreign, filter_foreign, HF. }
    eapply run_listeners_app.
    + cbn [run_listeners]. eapply runs_bind; [exact R1|reflexivity].
    + cbn [run_listeners]. eapply runs_bind; [exact R2|reflexivity].
  - now rewrite O2, O1, O0, !listener_step_listeners.
Qed.

End Twice.

Lemma listener_step_fields (b t : JS.value) (url : string)
  (span : option nat) (h : ref) (ev : Event) (o : Obs) :
  o_installed (listener_step b t url span h ev o) = o_installed o
  /\ o_method (listener_step b t url span h ev o) = o_method o
  /\ o_crumbs (listener_step b t url span h ev o)
     = (o_crumbs o
        ++ if JS.truthy b && o_installed o
           then [crumb_for url h (o_method o) ev] else [])%list
  /\ o_finished (listener_step b t url span h ev o)
     = match span with
       | Some s =>
           if JS.truthy t then update_nth s S (o_finished o)
           else o_finished o
       | None => o_finished o
       end.
Proof.
  unfold listener_step, finish_step, crumb_step.
  destruct (JS.truthy b && o_installed o), span as [s|], (JS.truthy t);
    cbn [o_installed o_method o_crumbs o_finished]; rewrite ?app_nil_r; auto.
Qed.

Lemma update_nth_app {X : Type} (k : nat) (g : X -> X) (l r : list X) :
  update_nth (List.length l + k) g (l ++ r) = (l ++ update_nth k g r)%list.
Proof.
  induction l as [|x l IH]; [reflexivity|].
  cbn [List.length Nat.add app update_nth]. now rewrite IH.
Qed.

Lemma isSentryRequest_client (url : string) (h1 h2 : Hub) :
  getClient h1 = getClient h2 ->
  isSentryRequest url h1 = isSentryRequest url h2.
Proof. unfold isSentryRequest. now intros ->. Qed.

(** X11: an entry point that is wrapped twice records every call twice,
    as the comment of lines 30-32 warns: the call starts two spans when it
    starts one, and the event that follows appends two equal breadcrumbs
    (with the integration installed) and finishes both spans. *)
Theorem wrappedHandler_twice (b t : JS.value) (f : NodeHandler)
  (options : CallArgs) (rest : list Extra) (w : World) (h : ref) (m : Heap)
  (ev : Event) :
  JS.truthy b = true ->
  getIntegration (hub w) = true ->
  isSentryRequest (extractUrl (deref options w)) (hub w) = false ->
  f options rest (heap w) = (Ok h, m) ->
  Forall foreign (listeners (requests m h)) ->
  let crumb :=
    crumb_for (extractUrl (deref options w)) h (req_method (requests m h)) ev
  in
  exists w1 w2,
    runs (wrappedHandler b t (wrappedHandler b t (native f)) options rest)
      w h w1
    /\ spans (hub w1)
       = (spans (hub w) ++ new_spans t options w ++ new_spans t options w)%list
    /\ runs (emit h ev) w1 tt w2
    /\ breadcrumbs (hub w2) = (breadcrumbs (hub w) ++ [crumb; crumb])%list
    /\ map finished (spans (hub w2))
       = (map finished (spans (hub w))
          ++ map (fun _ => 1%nat)
               (new_spans t options w ++ new_spans t options w))%list.
Proof.
  intros Hb Hi Hs Hf HF crumb.
  set (ws := snd (span_start t options w)).
  destruct (span_start_heap t options w)
    as (Hh & Hbc & Hin & Hcl & Hsc & Hsp).
  fold ws in Hh, Hbc, Hin, Hcl, Hsc, Hsp.
  assert (Dw : deref options ws = deref options w)
    by (destruct options; cbn [deref]; now rewrite ?Hh).
  assert (Hs' : isSentryRequest (extractUrl (deref options ws)) (hub ws)
                = false)
    by (rewrite Dw, (isSentryRequest_client _ _ _ Hcl); exact Hs).
  assert (Hf' : f options rest (heap ws) = (Ok h, m)) by now rewrite Hh.
  destruct (native_call b t f options rest ws h m Hs' Hf')
    as (w1 & R1 & Hh1 & _ & Hm1 & HL1).
  rewrite Dw in HL1.
  assert (Stw : started t (hub ws) = started t (hub w))
    by (unfold started; now rewrite Hsc).
  assert (Nw : new_spans t options ws = new_spans t options w)
    by (unfold new_spans; now rewrite Stw, Dw).
  destruct (span_start_heap t options ws)
    as (_ & Hbc2 & Hin2 & _ & _ & Hsp2).
  rewrite Nw, Hsp in Hsp2. rewrite Hbc in Hbc2. rewrite Hin in Hin2.
  set (inner := fst (span_start t options ws)) in *.
  set (outer := fst (span_start t options w)).
  set (url := extractUrl (deref options w)) in *.
  set (w2 := add_listener h (error_listener b t url options outer)
               (add_listener h (response_listener b t url options outer) w1)).
  assert (R2 : runs (wrappedHandler b t (wrappedHandler b t (native f))
                       options rest) w h w2)
    by (apply wrapped_returns; [exact Hs | exact R1]).
  assert (L2 : listeners (requests (heap w2) h)
               = (call_listeners b t url options inner
                    (listeners (requests m h)) true true
                  ++ [response_listener b t url options outer;
                      error_listener b t url options outer])%list).
  { unfold w2, add_listener, with_request, upd. cbn [heap requests].
    rewrite !Nat.eqb_refl. cbn [listeners]. rewrite HL1.
    now rewrite <- app_assoc. }
  assert (O2 : observe h w2
               = mkObs (breadcrumbs (hub w))
                   (map finished (spans (hub w)
                                  ++ new_spans t options w
                                  ++ new_spans t options w))
                   true (req_method (requests m h))
                   (listeners (requests (heap w2) h))).
  { unfold observe. f_equal; try reflexivity.
    - change (hub w2) with (hub w1). now rewrite Hh1, Hbc2.
    - change (hub w2) with (hub w1). now rewrite Hh1, Hsp2, <- app_assoc.
    - change (hub w2) with (hub w1). now rewrite Hh1, Hin2.
    - unfold w2, add_listener, with_request, upd. cbn [heap requests].
      rewrite !Nat.eqb_refl. cbn [req_method]. exact Hm1. }
  destruct (emit_twice b t url options h inner outer ev _ w2 HF L2)
    as (w3 & ls & R3 & O3).
  exists w2, w3. split; [exact R2|]. split.
  { change (hub w2) with (hub w1). now rewrite Hh1, Hsp2, <- app_assoc. }
  split; [exact R3|].
  set (o2 := observe h w2) in *.
  destruct (listener_step_fields b t url inner h ev o2)
    as (Ii & Im & Ic & If).
  destruct (listener_step_fields b t url outer h ev
              (listener_step b t url inner h ev o2)) as (_ & _ & Oc & Of).
  split.
  - change (breadcrumbs (hub w3)) with (o_crumbs (observe h w3)).
    rewrite O3. cbn [with_listeners o_crumbs].
    rewrite Oc, Ii, Im, Ic, O2. cbn [o_installed o_crumbs o_method].
    rewrite Hb. cbn [andb]. now rewrite <- app_assoc.
  - change (map finished (spans (hub w3))) with (o_finished (observe h w3)).
    rewrite O3. cbn [with_listeners o_finished].
    rewrite Of, If, O2. cbn [o_finished].
    subst inner outer. unfold span_start. rewrite Stw.
    unfold new_spans. destruct (started t (hub w)) as [tx|] eqn:St;
      cbn [fst app map]; [|now rewrite !app_nil_r].
    assert (Ht : JS.truthy t = true).
    { unfold started in St. destruct (getScope (hub w)); [|discriminate].
      now destruct (JS.truthy t). }
    rewrite Ht. fold ws. rewrite Hsp. unfold new_spans. rewrite St.
    rewrite length_app, map_app. cbn [List.length map finished].
    rewrite <- (length_map finished (spans (hub w))).
    rewrite update_nth_app.
    rewrite <- (Nat.add_0_r (List.length (map finished (spans (hub w))))) at 1.
    rewrite update_nth_app. reflexivity.
Qed.

(** A call through a twice-wrapped entry point, answered with an error. *)
Lemma wrappedHandler_twice_witness :
  exists w1 w2,
    runs (wrappedHandler (JS.Bool true) (JS.Bool true)
            (wrappedHandler (JS.Bool true) (JS.Bool true)
               (native demo_request)) (ArgObject 0) [])
         (mkWorld traced_hub demo_heap) 1 w1
    /\ runs (emit 1 EvError) w1 tt w2
    /\ List.length (breadcrumbs (hub w2)) = 2%nat
    /\ map finished (spans (hub w2)) = [1%nat; 1%nat].
Proof.
  destruct (wrappedHandler_twice (JS.Bool true) (JS.Bool true) demo_request
              (ArgObject 0) [] (mkWorld traced_hub demo_heap) 1 demo_heap
              EvError)
    as (w1 & w2 & R1 & _ & R2 & Hb & Hf); try reflexivity.
  { constructor. }
  exists w1, w2. split; [exact R1|]. split; [exact R2|]. split.
  - now rewrite Hb.
  - exact Hf.
Defined.

(** ** The flags of the constructor *)

(** X12: only [undefined] selects a default (lines 15-16): a key that is
    present and holds [undefined] counts as missing, and any other value is
    stored as it is, so [null], [0] or [''] switch a recorder off; and
    installation is skipped (line 23) whenever both stored flags are
    falsy, whatever their values. *)
Theorem Http_flag_values :
  (forall t',
      _breadcrumbs (Http (Some (mkHttpOptions (Some JS.Undefined) t')))
      = JS.Bool true)
  /\ (forall b',
        _tracing (Http (Some (mkHttpOptions b' (Some JS.Undefined))))
        = JS.Bool false)
  /\ (forall v t',
        JS.is_undefined v = false ->
        _breadcrumbs (Http (Some (mkHttpOptions (Some v) t'))) = v)
  /\ (forall v b',
        JS.is_undefined v = false ->
        _tracing (Http (Some (mkHttpOptions b' (Some v)))) = v)
  /\ (forall this major ms,
        JS.truthy (_breadcrumbs this) = false ->
        JS.truthy (_tracing this) = false ->
        setupOnce this major ms = ms).
Proof.
  split; [reflexivity|]. split; [reflexivity|].
  split; [|split].
  - intros v t' Hv. unfold Http. cbn [opt_breadcrumbs JS.get _breadcrumbs].
    now rewrite Hv.
  - intros v b' Hv. unfold Http. cbn [opt_tracing JS.get _tracing].
    now rewrite Hv.
  - intros this major ms Hb Ht. unfold setupOnce. now rewrite Hb, Ht.
Qed.

(** [new Http({breadcrumbs: null})] installs nothing. *)
Lemma Http_flag_values_witness :
  let original := mkModule (plain_request 0) (plain_request 1) in
  setupOnce (Http (Some (mkHttpOptions (Some JS.Null) None))) (JS.Num 18)
    (mkModules original original)
  = mkModules original original.
Proof.
  cbv zeta. destruct Http_flag_values as (_ & _ & _ & _ & H).
  apply H; reflexivity.
Defined.

(** ** What the listeners write to option objects *)





(** ** The default configuration, end to end *)

Lemma default_flags_call (f : NodeHandler) (options : CallArgs)
  (rest : list Extra) (w : World) (h : ref) (m : Heap) :
  isSentryRequest (extractUrl (deref options w)) (hub w) = false ->
  f options rest (heap w) = (Ok h, m) ->
  Forall foreign (listeners (requests m h)) ->
  getIntegration (hub w) = true ->
  exists w1,
    runs (wrappedHandler (JS.Bool true) (JS.Bool false) (native f)
            options rest) w h w1
    /\ forall ev evs',
         one_kind (ev :: evs') ->
         exists w2,
           runs (deliver h (ev :: evs')) w1 tt w2
           /\ breadcrumbs (hub w2)
              = (breadcrumbs (hub w)
                 ++ [crumb_for (extractUrl (deref options w)) h
                       (req_method (requests m h)) ev])%list
           /\ spans (hub w2) = spans (hub w).
Proof.
  intros Hs Hf HF Hi.
  destruct (call_effect (JS.Bool true) (JS.Bool false) f options rest w h m
              Hs Hf) as (w1 & R1 & S1 & O1).
  assert (St : started (JS.Bool false) (hub w) = None)
    by (unfold started; now destruct (getScope (hub w))).
  rewrite St in S1, O1. cbn [option_map] in O1. rewrite app_nil_r in S1.
  exists w1. split; [exact R1|]. intros ev evs' Hk.
  destruct (deliver_effect (JS.Bool true) (JS.Bool false)
              (extractUrl (deref options w)) options None h (ev :: evs')
              _ true true w1 HF) as (w2 & ls & R2 & O2); [now rewrite O1|].
  exists w2. split; [exact R2|]. split.
  - change (breadcrumbs (hub w2)) with (o_crumbs (observe h w2)).
    rewrite O2. cbn [with_listeners o_crumbs].
    rewrite deliver_obs_crumbs, O1.
    cbn [o_crumbs o_installed o_method JS.truthy andb]. rewrite Hi.
    change (fired (ev :: evs') true true) with (first_events (ev :: evs')).
    now rewrite first_events_one_kind.
  - destruct (deliver_observed (JS.Bool true) (JS.Bool false)
                (extractUrl (deref options w)) options None h _
                (fun w0 => (spans (hub w0), objects (heap w0)))
                (fun _ x => x)
                (fun ls0 w0 => eq_refl)
                (listener_without_span (JS.Bool true) (JS.Bool false) _
                   options h)
                (ev :: evs') _ true true w1 HF) as (w2' & R2' & O2').
    { change (listeners (requests (heap w1) h))
        with (o_listeners (observe h w1)). now rewrite O1. }
    rewrite (runs_functional _ _ _ _ _ _ R2 R2').
    rewrite fold_left_same in O2'. injection O2' as -> _. exact S1.
Qed.

(** X14: an integration built without options (breadcrumbs on, tracing
    off) and installed over Node's own [http] entry points records, for a
    call through [get] or [request] that is not to the sink, one breadcrumb
    at the first event and never a span, whatever transaction the scope
    holds. *)
Theorem default_integration_records_breadcrumbs (major : JS.value)
  (ms : Modules) (pick : NodeModule -> Handler) (f : NodeHandler)
  (options : CallArgs) (rest : list Extra) (w : World) (h : ref) (m : Heap) :
  pick = mod_get \/ pick = mod_request ->
  pick (httpModule ms) = native f ->
  isSentryRequest (extractUrl (deref options w)) (hub w) = false ->
  f options rest (heap w) = (Ok h, m) ->
  Forall foreign (listeners (requests m h)) ->
  getIntegration (hub w) = true ->
  exists w1,
    runs (pick (httpModule (setupOnce (Http None) major ms)) options rest)
      w h w1
    /\ forall ev evs',
         one_kind (ev :: evs') ->
         exists w2,
           runs (deliver h (ev :: evs')) w1 tt w2
           /\ breadcrumbs (hub w2)
              = (breadcrumbs (hub w)
                 ++ [crumb_for (extractUrl (deref options w)) h
                       (req_method (requests m h)) ev])%list
           /\ spans (hub w2) = spans (hub w).
Proof.
  intros Hpick Hnat Hs Hf HF Hi.
  assert (E : pick (httpModule (setupOnce (Http None) major ms))
              = wrappedHandler (JS.Bool true) (JS.Bool false) (native f)).
  { rewrite <- Hnat. unfold setupOnce, Http.
    cbn [_breadcrumbs _tracing opt_breadcrumbs opt_tracing JS.get
           JS.is_undefined JS.truthy negb andb].
    destruct (JS.truthy major && _), Hpick as [->| ->]; reflexivity. }
  rewrite E. now apply default_flags_call.
Qed.

(** A [get] through the installed module, answered with status 200. *)
Lemma default_integration_records_breadcrumbs_witness :
  let ms := mkModules (mkModule (native demo_request) (native demo_request))
                      (mkModule (native demo_request) (native demo_request))
  in
  exists w1 w2,
    runs (mod_get (httpModule (setupOnce (Http None) (JS.Num 18) ms))
            (ArgObject 0) [])
         (mkWorld traced_hub demo_heap) 1 w1
    /\ runs (deliver 1 [EvResponse ok_response]) w1 tt w2
    /\ breadcrumbs (hub w2)
       = [mkBreadcrumb "http" (JS.Str "POST") (JS.Num 200) "http://a/x"
            "http" "response" 1 (Some ok_response)]
    /\ spans (hub w2) = [].
Proof.
  cbv zeta.
  destruct (default_integration_records_breadcrumbs (JS.Num 18)
              (mkModules
                 (mkModule (native demo_request) (native demo_request))
                 (mkModule (native demo_request) (native demo_request)))
              mod_get demo_request (ArgObject 0) []
              (mkWorld traced_hub demo_heap) 1 demo_heap)
    as (w1 & R1 & H); try reflexivity.
  { now left. }
  { constructor. }
  destruct (H (EvResponse ok_response) []) as (w2 & R2 & Hb & Hsp).
  { intros e1 e2 [<-|[]] [<-|[]]. reflexivity. }
  exists w1, w2. split; [exact R1|]. split; [exact R2|].
  split; [exact Hb | exact Hsp].
Defined.
